(** * A shallow embedding of the dev.to / GitHub audience analyzer clients

    Sources: [src/api_client.py] and [src/github_client.py].

    Effects are modelled by explicit state passing.  Every routine receives
    - the stream of answers the network gives to its successive
      [requests.get] calls ([list (Net B)], one element consumed per call,
      [B] being the shape of that endpoint's JSON body, which a response
      may also lack), and
    - the trace of observable events so far (requests, sleeps, prints,
      log lines of the [backoff] decorator),
    and returns a [Res]: a normal return, a raised exception, or [Stuck]
    when the modelled answer stream ran out before the routine returned.

    Tables ([pd.DataFrame]) live in a store of shared objects so that the
    in-place mutations of the enrichment routines are visible to the
    caller, as in Python. *)

From Stdlib Require Import List String Ascii ZArith Lia Bool.
Import ListNotations.
Open Scope string_scope.
Open Scope list_scope.
Set Warnings "-register-all".

(** ** Python values *)

(** Values that end up in table cells and dictionaries.  [PNone] stands for
    Python's [None] and pandas' missing value ([NaN]). *)
Inductive pyval : Type :=
| PNone
| PBool (b : bool)
| PInt (z : Z)
| PStr (s : string)
| PList (l : list pyval)
| PDict (d : list (string * pyval)).

(** A JSON object decoded by [response.json()]: keys are unique. *)
Definition Dict := list (string * pyval).

Fixpoint dict_lookup (k : string) (d : Dict) : option pyval :=
  match d with
  | [] => None
  | (k', v) :: d' => if String.eqb k k' then Some v else dict_lookup k d'
  end.

(** [d.get(k)] *)
Definition dict_get (d : Dict) (k : string) : pyval :=
  match dict_lookup k d with Some v => v | None => PNone end.

(** Truthiness of a dictionary ([if user_data:]). *)
Definition dict_truthy (d : Dict) : bool :=
  match d with [] => false | _ => true end.

Definition opt_str (o : option string) : pyval :=
  match o with Some s => PStr s | None => PNone end.

Definition opt_int (o : option Z) : pyval :=
  match o with Some z => PInt z | None => PNone end.

(** Decimal rendering of naturals (used for the [page=] query parameter). *)
Fixpoint nat_digits (fuel n : nat) (acc : string) : string :=
  match fuel with
  | O => acc
  | S f =>
      let acc' := String (ascii_of_nat (48 + n mod 10)) acc in
      if Nat.eqb (n / 10) 0 then acc' else nat_digits f (n / 10) acc'
  end.

Definition str_of_nat (n : nat) : string := nat_digits (S n) n "".

(** [str(x)] for the values used as user names in f-strings. *)
Definition py_str (v : pyval) : string :=
  match v with
  | PStr s => s
  | PNone => "None"
  | PBool true => "True"
  | PBool false => "False"
  | PInt z => if (z <? 0)%Z then ("-" ++ str_of_nat (Z.to_nat (- z)))%string
              else str_of_nat (Z.to_nat z)
  | PList _ => "[...]"
  | PDict _ => "{...}"
  end.

(** ** Exceptions, network answers, events *)

(** Subclasses of [requests.exceptions.RequestException]. *)
Inductive req_exc : Type :=
| ConnectionError
| Timeout
| HTTPError
| JSONDecodeError
| OtherRequestError.

Inductive exn : Type :=
| RequestException (k : req_exc)
| KeyError (key : string)
| TypeError
| AttributeError
| ValueError.

Definition is_request_exception (e : exn) : bool :=
  match e with RequestException _ => true | _ => false end.

(** What one [requests.get] call gives: either the transport layer raises,
    or an HTTP response arrives with its status code, its [response.text]
    and what [response.json()] makes of that text: [Some] value when the
    body is JSON, [None] when it is not, in which case [response.json()]
    raises [requests.exceptions.JSONDecodeError], a [RequestException]
    (requests 2.27 and later).  The payload only matters where the code
    calls [response.json()]. *)
Inductive Net (B : Type) : Type :=
| Transport (k : req_exc)
| Resp (status : Z) (text : string) (payload : option B).
Arguments Transport {B} k.
Arguments Resp {B} status text payload.

Inductive event : Type :=
| Get (url : string)
| Sleep (seconds : Z)
| Print (parts : list pyval)
| BackingOff (tries : nat)   (** backoff's log line and jittered wait *)
| GivingUp (tries : nat).    (** backoff's log line before re-raising *)

Inductive Res (B A : Type) : Type :=
| Ok (a : A) (net : list (Net B)) (tr : list event)
| Exc (e : exn) (net : list (Net B)) (tr : list event)
| Stuck (tr : list event).
Arguments Ok {B A} a net tr.
Arguments Exc {B A} e net tr.
Arguments Stuck {B A} tr.

(** ** The [backoff.on_exception] decorator

    [@backoff.on_exception(backoff.expo, requests.exceptions.RequestException,
    max_tries=5)], following the retry loop of the [backoff] library:
    the target is called; a normal return is passed through; an exception
    that is not a [RequestException] propagates at once; a
    [RequestException] at try number [tries = max_tries] is re-raised after
    the give-up handler, otherwise the decorator waits and calls the
    target again on the remaining network.  [left] is [max_tries - tries]. *)
Fixpoint backoff_retry {B A : Type} (left tries : nat)
    (target : list (Net B) -> list event -> Res B A)
    (net : list (Net B)) (tr : list event) : Res B A :=
  match target net tr with
  | Ok a net' tr' => Ok a net' tr'
  | Stuck tr' => Stuck tr'
  | Exc e net' tr' =>
      if is_request_exception e then
        match left with
        | O => Exc e net' (tr' ++ [GivingUp tries])
        | S left' => backoff_retry left' (S tries) target net'
                       (tr' ++ [BackingOff tries])
        end
      else Exc e net' tr'
  end.

Definition on_exception {B A : Type} (max_tries : nat)
    (target : list (Net B) -> list event -> Res B A) :
    list (Net B) -> list event -> Res B A :=
  backoff_retry (max_tries - 1) 1 target.

(** ** [get_user_details] (api_client.py, lines 87-125) *)

Definition BASE_URL := "https://dev.to/api".

Definition normalize_user_details (data : Dict) : Dict :=
  [("name", dict_get data "name");
   ("twitter_username", dict_get data "twitter_username");
   ("github_username", dict_get data "github_username");
   ("summary", dict_get data "summary");
   ("location", dict_get data "location");
   ("website_url", dict_get data "website_url");
   ("joined_at", dict_get data "joined_at");
   ("profile_image", dict_get data "profile_image")].

(** The [while True] loop: one request per iteration. *)
Fixpoint get_user_details_loop (username : string) (net : list (Net Dict))
    (tr : list event) : Res Dict Dict :=
  let url := (BASE_URL ++ "/users/by_username?url=" ++ username)%string in
  let tr := tr ++ [Get url] in
  match net with
  | [] => Stuck tr
  | Transport k :: rest => Exc (RequestException k) rest tr
  | Resp status text data :: rest =>
      if (status =? 200)%Z then
        match data with
        | None => Exc (RequestException JSONDecodeError) rest tr
        | Some data => Ok (normalize_user_details data) rest tr
        end
      else if (status =? 429)%Z then
        get_user_details_loop username rest
          (tr ++ [Print [PStr "Rate limit reached for "; PStr username;
                         PStr ". Retrying after 1 second..."];
                  Sleep 1])
      else
        Ok [] rest
          (tr ++ [Print [PStr "Failed to load user details for "; PStr username;
                         PStr ": "; PInt status; PStr " - "; PStr text]])
  end.

Definition get_user_details (username : string) :
    list (Net Dict) -> list event -> Res Dict Dict :=
  on_exception 5 (get_user_details_loop username).

(** ** [get_github_user] (github_client.py, lines 13-52)

    The [token] only enters the request headers, which are not part of the
    observable events. *)
Fixpoint get_github_user_loop (username : string) (net : list (Net Dict))
    (tr : list event) : Res Dict (option Dict) :=
  let url := ("https://api.github.com/users/" ++ username)%string in
  let tr := tr ++ [Get url] in
  match net with
  | [] => Stuck tr
  | Transport k :: rest => Exc (RequestException k) rest tr
  | Resp status text data :: rest =>
      if (status =? 200)%Z then
        match data with
        | None => Exc (RequestException JSONDecodeError) rest tr
        | Some data => Ok (Some data) rest (tr ++ [Print [PDict data]])
        end
      else if (status =? 404)%Z then
        Ok None rest (tr ++ [Print [PStr "User "; PStr username; PStr " not found."]])
      else if (status =? 429)%Z then
        get_github_user_loop username rest
          (tr ++ [Print [PStr "Rate limit exceeded. Waiting before retrying..."];
                  Sleep 60])
      else
        Ok None rest
          (tr ++ [Print [PStr "Failed to fetch "; PStr username;
                         PStr ". Status code: "; PInt status]])
  end.

Definition get_github_user (username : string) (token : option string) :
    list (Net Dict) -> list event -> Res Dict (option Dict) :=
  on_exception 5 (get_github_user_loop username).

(** ** Tables ([pd.DataFrame])

    A table is its list of row labels and its columns in order, each column
    holding one cell per row. *)
Record DataFrame : Type := mkDataFrame {
  df_index : list Z;
  df_columns : list (string * list pyval)
}.

(** [df[c]]: the column named [c], if any. *)
Fixpoint col_lookup (c : string) (cols : list (string * list pyval)) :
    option (list pyval) :=
  match cols with
  | [] => None
  | (c', vs) :: cols' => if String.eqb c c' then Some vs else col_lookup c cols'
  end.

Definition df_col (df : DataFrame) (c : string) : option (list pyval) :=
  col_lookup c (df_columns df).

(** Keys of a list of dictionaries, in order of first appearance. *)
Fixpoint keys_union (seen : list string) (recs : list Dict) : list string :=
  match recs with
  | [] => seen
  | r :: recs' =>
      keys_union
        (fold_left (fun acc k => if existsb (String.eqb k) acc then acc
                                 else acc ++ [k]) (map fst r) seen)
        recs'
  end.

(** [pd.DataFrame(records)] for a list of dictionaries: a default
    [RangeIndex], one column per key, missing keys as [NaN]. *)
Definition df_from_records (recs : list Dict) : DataFrame :=
  {| df_index := map Z.of_nat (seq 0 (List.length recs));
     df_columns := map (fun k => (k, map (fun r => dict_get r k) recs))
                       (keys_union [] recs) |}.

(** ** Articles as the API returns them

    [None] is an absent key (the API schema makes these fields non-null
    when present). *)
Record Article : Type := mkArticle {
  title : option string;
  published_at : option string;
  public_reactions_count : option Z;
  reading_time_minutes : option Z;
  comments_count : option Z;
  positive_reactions_count : option Z;
  tag_list : option (list string)
}.

Definition article_to_pyval (a : Article) : pyval :=
  PDict ((match title a with Some t => [("title", PStr t)] | None => [] end) ++
         (match published_at a with Some p => [("published_at", PStr p)] | None => [] end) ++
         (match public_reactions_count a with
          | Some n => [("public_reactions_count", PInt n)] | None => [] end) ++
         (match reading_time_minutes a with
          | Some n => [("reading_time_minutes", PInt n)] | None => [] end) ++
         (match comments_count a with Some n => [("comments_count", PInt n)] | None => [] end) ++
         (match positive_reactions_count a with
          | Some n => [("positive_reactions_count", PInt n)] | None => [] end) ++
         (match tag_list a with
          | Some l => [("tag_list", PList (map PStr l))] | None => [] end)).

(** [article.get("tag_list", [])] *)
Definition tag_list_or_nil (a : Article) : list string :=
  match tag_list a with Some l => l | None => [] end.

(** ** [load_articles_to_dataframe] (api_client.py, lines 18-52) *)

(** The row built for one article; [article["k"]] raises [KeyError] on an
    absent key, the keys being evaluated left to right. *)
Definition article_row (a : Article) : exn + Dict :=
  match title a with
  | None => inl (KeyError "title")
  | Some t =>
      match published_at a with
      | None => inl (KeyError "published_at")
      | Some p =>
          match public_reactions_count a with
          | None => inl (KeyError "public_reactions_count")
          | Some n => inr [("title", PStr t); ("created_at", PStr p);
                           ("public_reactions_count", PInt n)]
          end
      end
  end.

Fixpoint article_rows (data : list Article) : exn + list Dict :=
  match data with
  | [] => inr []
  | a :: data' =>
      match article_row a with
      | inl e => inl e
      | inr r => match article_rows data' with
                 | inl e => inl e
                 | inr rs => inr (r :: rs)
                 end
      end
  end.

Fixpoint load_articles_loop (page : nat) (articles : list Dict)
    (net : list (Net (list Article))) (tr : list event) :
    Res (list Article) DataFrame :=
  let url := (BASE_URL ++ "/articles/me?page=" ++ str_of_nat page)%string in
  let tr := tr ++ [Get url] in
  match net with
  | [] => Stuck tr
  | Transport k :: rest => Exc (RequestException k) rest tr
  | Resp status text data :: rest =>
      if negb (status =? 200)%Z then
        Ok (df_from_records articles) rest
          (tr ++ [Print [PStr "Failed to load articles: "; PInt status;
                         PStr " - "; PStr text]])
      else
        match data with
        | None => Exc (RequestException JSONDecodeError) rest tr
        | Some [] => Ok (df_from_records articles) rest tr
        | Some data =>
            match article_rows data with
            | inl e => Exc e rest tr
            | inr rows => load_articles_loop (S page) (articles ++ rows) rest tr
            end
        end
  end.

Definition load_articles_to_dataframe :
    list (Net (list Article)) -> list event -> Res (list Article) DataFrame :=
  on_exception 5 (load_articles_loop 1 []).

(** ** [load_followers_to_dataframe] (api_client.py, lines 55-84) *)

Fixpoint load_followers_loop (page : nat) (followers : list Dict)
    (net : list (Net (list Dict))) (tr : list event) :
    Res (list Dict) DataFrame :=
  let url := (BASE_URL ++ "/followers/users?page=" ++ str_of_nat page
              ++ "&per_page=1000")%string in
  let tr := tr ++ [Get url] in
  match net with
  | [] => Stuck tr
  | Transport k :: rest => Exc (RequestException k) rest tr
  | Resp status text data :: rest =>
      if negb (status =? 200)%Z then
        Ok (df_from_records followers) rest
          (tr ++ [Print [PStr "Failed to load followers: "; PInt status;
                         PStr " - "; PStr text]])
      else
        match data with
        | None => Exc (RequestException JSONDecodeError) rest tr
        | Some [] => Ok (df_from_records followers) rest tr
        | Some data => load_followers_loop (S page) (followers ++ data) rest tr
        end
  end.

Definition load_followers_to_dataframe :
    list (Net (list Dict)) -> list event -> Res (list Dict) DataFrame :=
  on_exception 5 (load_followers_loop 1 []).

(** ** [get_user_articles_summary] (api_client.py, lines 155-233) *)

(** The returned dictionary; the same record holds the loop's local lists,
    [article_count] being filled in at the end. *)
Record Summary : Type := mkSummary {
  article_count : Z;
  article_titles : list (option string);
  unique_tags : list string;
  tags : list (list string);
  article_reading_time_minutes : list (option Z);
  article_comments_counts : list (option Z);
  article_positive_reactions_counts : list (option Z);
  article_published_at : list (option string)
}.

Definition empty_summary : Summary :=
  {| article_count := 0; article_titles := []; unique_tags := []; tags := [];
     article_reading_time_minutes := []; article_comments_counts := [];
     article_positive_reactions_counts := []; article_published_at := [] |}.

(** The [unique_tags] set, kept as a duplicate-free list; only its elements
    matter, since [list(unique_tags)] has no specified order. *)
Definition set_add (x : string) (s : list string) : list string :=
  if existsb (String.eqb x) s then s else s ++ [x].

(** [unique_tags.update(l)] *)
Definition set_update (s : list string) (l : list string) : list string :=
  fold_left (fun acc x => set_add x acc) l s.

(** The body of [for article in articles:]. *)
Definition summary_step (acc : Summary) (a : Article) : Summary :=
  {| article_count := article_count acc;
     article_titles := article_titles acc ++ [title a];
     unique_tags := set_update (unique_tags acc) (tag_list_or_nil a);
     tags := tags acc ++ [tag_list_or_nil a];
     article_reading_time_minutes :=
       article_reading_time_minutes acc ++ [reading_time_minutes a];
     article_comments_counts := article_comments_counts acc ++ [comments_count a];
     article_positive_reactions_counts :=
       article_positive_reactions_counts acc ++ [positive_reactions_count a];
     article_published_at := article_published_at acc ++ [published_at a] |}.

Fixpoint summary_articles (acc : Summary) (arts : list Article)
    (tr : list event) : Summary * list event :=
  match arts with
  | [] => (acc, tr)
  | a :: arts' =>
      summary_articles (summary_step acc a) arts' (tr ++ [Print [article_to_pyval a]])
  end.

(** The final [return] after the loop. *)
Definition summary_result (acc : Summary) : Summary :=
  {| article_count := Z.of_nat (List.length (article_titles acc));
     article_titles := article_titles acc;
     unique_tags := unique_tags acc;
     tags := tags acc;
     article_reading_time_minutes := article_reading_time_minutes acc;
     article_comments_counts := article_comments_counts acc;
     article_positive_reactions_counts := article_positive_reactions_counts acc;
     article_published_at := article_published_at acc |}.

Fixpoint summary_loop (username : string) (page : nat) (acc : Summary)
    (net : list (Net (list Article))) (tr : list event) :
    Res (list Article) Summary :=
  let url := (BASE_URL ++ "/articles?username=" ++ username ++ "&page="
              ++ str_of_nat page)%string in
  let tr := tr ++ [Get url] in
  match net with
  | [] => Stuck tr
  | Transport k :: rest => Exc (RequestException k) rest tr
  | Resp status text articles :: rest =>
      if (status =? 200)%Z then
        match articles with
        | None => Exc (RequestException JSONDecodeError) rest tr
        | Some [] => Ok (summary_result acc) rest tr
        | Some articles =>
            let (acc', tr') := summary_articles acc articles tr in
            summary_loop username (S page) acc' rest tr'
        end
      else if (status =? 429)%Z then
        summary_loop username page acc rest
          (tr ++ [Print [PStr "Rate limit reached for "; PStr username;
                         PStr ". Retrying after 1 second..."];
                  Sleep 1])
      else
        Ok empty_summary rest
          (tr ++ [Print [PStr "Failed to load articles for "; PStr username;
                         PStr ": "; PInt status; PStr " - "; PStr text]])
  end.

Definition get_user_articles_summary (username : string) :
    list (Net (list Article)) -> list event -> Res (list Article) Summary :=
  on_exception 5 (summary_loop username 1 empty_summary).

(** ** The store of shared table objects

    A Python reference to a table is a location of the store. *)
Definition Store := list DataFrame.

Fixpoint store_set (st : Store) (l : nat) (df : DataFrame) : Store :=
  match st, l with
  | [], _ => []
  | _ :: st', O => df :: st'
  | d :: st', S l' => d :: store_set st' l' df
  end.

(** [df[c] = vs] for a list [vs]: replaces the column [c] where it exists,
    appends it otherwise; a list whose length is not the number of rows
    raises [ValueError]. *)
Fixpoint cols_set (c : string) (vs : list pyval)
    (cols : list (string * list pyval)) : list (string * list pyval) :=
  match cols with
  | [] => [(c, vs)]
  | (c', vs') :: cols' =>
      if String.eqb c c' then (c', vs) :: cols' else (c', vs') :: cols_set c vs cols'
  end.

Definition df_setitem (df : DataFrame) (c : string) (vs : list pyval) :
    exn + DataFrame :=
  if Nat.eqb (List.length vs) (List.length (df_index df)) then
    inr {| df_index := df_index df; df_columns := cols_set c vs (df_columns df) |}
  else inl ValueError.

(** A sequence of column assignments, in program order.  (A failing
    assignment only arises for a table whose columns do not all have one
    cell per row, which pandas does not build.) *)
Fixpoint df_setitems (df : DataFrame) (assigns : list (string * list pyval)) :
    exn + DataFrame :=
  match assigns with
  | [] => inr df
  | (c, vs) :: assigns' =>
      match df_setitem df c vs with
      | inl e => inl e
      | inr df' => df_setitems df' assigns'
      end
  end.

(** ** [update_followers_with_articles] (api_client.py, lines 236-295) *)

(** The eight keys read from each summary, in the order of the column
    assignments at the end of the function. *)
Definition summary_fields : list (string * (Summary -> pyval)) :=
  [("article_count", fun s => PInt (article_count s));
   ("article_titles", fun s => PList (map opt_str (article_titles s)));
   ("unique_tags", fun s => PList (map PStr (unique_tags s)));
   ("tags", fun s => PList (map (fun l => PList (map PStr l)) (tags s)));
   ("article_reading_time_minutes",
      fun s => PList (map opt_int (article_reading_time_minutes s)));
   ("article_comments_counts", fun s => PList (map opt_int (article_comments_counts s)));
   ("article_positive_reactions_counts",
      fun s => PList (map opt_int (article_positive_reactions_counts s)));
   ("article_published_at", fun s => PList (map opt_str (article_published_at s)))].

Definition summary_field (c : string) (s : Summary) : pyval :=
  match find (fun f => String.eqb c (fst f)) summary_fields with
  | Some f => snd f s
  | None => PNone
  end.

Definition summary_print (username : pyval) (s : Summary) : event :=
  Print [PStr "For "; PStr (py_str username); PStr " found ";
         summary_field "article_count" s; PStr " articles ";
         summary_field "article_titles" s; PStr "  with ";
         summary_field "unique_tags" s; PStr " tags with ";
         summary_field "article_reading_time_minutes" s; PStr ", ";
         summary_field "article_comments_counts" s; PStr ", ";
         summary_field "article_positive_reactions_counts" s].

(** [for username in followers_df["username"]:], collecting the summaries
    that the eight lists are built from. *)
Fixpoint articles_per_row (usernames : list pyval)
    (net : list (Net (list Article))) (tr : list event) :
    Res (list Article) (list Summary) :=
  match usernames with
  | [] => Ok [] net tr
  | u :: us =>
      match get_user_articles_summary (py_str u) net tr with
      | Ok s net' tr' =>
          match articles_per_row us net' (tr' ++ [summary_print u s]) with
          | Ok ss net'' tr'' => Ok (s :: ss) net'' tr''
          | Exc e n t => Exc e n t
          | Stuck t => Stuck t
          end
      | Exc e n t => Exc e n t
      | Stuck t => Stuck t
      end
  end.

Definition field_columns {X : Type} (fields : list (string * (X -> pyval)))
    (xs : list X) : list (string * list pyval) :=
  map (fun f => (fst f, map (snd f) xs)) fields.

(** The table is mutated in place and the same reference is returned.  A
    dangling reference is not a Python state; it is reported as [TypeError]. *)
Definition update_followers_with_articles (st : Store) (followers_df : nat)
    (net : list (Net (list Article))) (tr : list event) :
    Res (list Article) (Store * nat) :=
  match nth_error st followers_df with
  | None => Exc TypeError net tr
  | Some df =>
      match df_col df "username" with
      | None => Exc (KeyError "username") net tr
      | Some usernames =>
          match articles_per_row usernames net tr with
          | Ok ss net' tr' =>
              match df_setitems df (field_columns summary_fields ss) with
              | inl e => Exc e net' tr'
              | inr df' => Ok (store_set st followers_df df', followers_df) net' tr'
              end
          | Exc e n t => Exc e n t
          | Stuck t => Stuck t
          end
      end
  end.

(** ** [get_user_stats] (api_client.py, lines 298-346)

    [Stats] is the returned tuple (badge titles, badge descriptions,
    comments written, tags followed).  The BeautifulSoup extraction of lines
    320-346 depends on the page text alone; it is the parameter [scrape],
    [None] standing for the [AttributeError] raised when a marker element
    lacks the expected child or a counter has no digits.  The branch
    [if response is None] is dead code ([requests.get] never returns
    [None]). *)
Definition Stats : Type := (list string * list string * Z * Z)%type.

Definition get_user_stats_body (scrape : string -> option Stats)
    (username : string) (net : list (Net unit)) (tr : list event) :
    Res unit Stats :=
  let url := ("https://dev.to/" ++ username ++ "/")%string in
  let tr := tr ++ [Get url] in
  match net with
  | [] => Stuck tr
  | Transport k :: rest => Exc (RequestException k) rest tr
  | Resp status text _ :: rest =>
      (* response.raise_for_status() *)
      if ((400 <=? status) && (status <? 600))%Z then
        Exc (RequestException HTTPError) rest tr
      else
        match scrape text with
        | Some s => Ok s rest tr
        | None => Exc AttributeError rest tr
        end
  end.

Definition get_user_stats (scrape : string -> option Stats) (username : string) :
    list (Net unit) -> list event -> Res unit Stats :=
  on_exception 5 (get_user_stats_body scrape username).

(** ** [update_followers_with_stats] (api_client.py, lines 349-394) *)

Definition stats_fields : list (string * (Stats -> pyval)) :=
  [("badges", fun s => match s with (b, _, _, _) => PList (map PStr b) end);
   ("badge_descriptions", fun s => match s with (_, d, _, _) => PList (map PStr d) end);
   ("comments_count", fun s => match s with (_, _, c, _) => PInt c end);
   ("tags_count", fun s => match s with (_, _, _, t) => PInt t end)].

Fixpoint stats_per_row (scrape : string -> option Stats)
    (rows : list (pyval * pyval)) (net : list (Net unit)) (tr : list event) :
    Res unit (list Stats) :=
  match rows with
  | [] => Ok [] net tr
  | (u, titles) :: rows' =>
      match get_user_stats scrape (py_str u) net tr with
      | Ok s net' tr' =>
          let ev := Print ([PStr (py_str u); titles] ++ map (fun f => snd f s) stats_fields) in
          match stats_per_row scrape rows' net' (tr' ++ [ev]) with
          | Ok ss net'' tr'' => Ok (s :: ss) net'' tr''
          | Exc e n t => Exc e n t
          | Stuck t => Stuck t
          end
      | Exc e n t => Exc e n t
      | Stuck t => Stuck t
      end
  end.

Definition update_followers_with_stats (scrape : string -> option Stats)
    (st : Store) (followers_df : nat) (net : list (Net unit)) (tr : list event) :
    Res unit (Store * nat) :=
  match nth_error st followers_df with
  | None => Exc TypeError net tr
  | Some df =>
      match df_col df "username" with
      | None => Exc (KeyError "username") net tr
      | Some usernames =>
          match df_col df "article_titles" with
          | None => Exc (KeyError "article_titles") net tr
          | Some titles =>
              match stats_per_row scrape (combine usernames titles) net tr with
              | Ok ss net' tr' =>
                  match df_setitems df (field_columns stats_fields ss) with
                  | inl e => Exc e net' tr'
                  | inr df' => Ok (store_set st followers_df df', followers_df) net' tr'
                  end
              | Exc e n t => Exc e n t
              | Stuck t => Stuck t
              end
          end
      end
  end.

(** The keys listed by the docstring of [get_github_user]. *)
Definition github_documented_keys : list string :=
  ["login"; "created_at"; "updated_at"; "public_repos"].

(** ** [update_with_github] (github_client.py, lines 55-104) *)

(** [series.notna()] on one cell. *)
Definition notna (v : pyval) : bool :=
  match v with PNone => false | _ => true end.

(** [series == "Connected Profiles"] on one cell. *)
Definition is_connected (v : pyval) : bool :=
  match v with PStr s => String.eqb s "Connected Profiles" | _ => false end.

Fixpoint filter_by {X : Type} (mask : list bool) (xs : list X) : list X :=
  match mask, xs with
  | b :: mask', x :: xs' => if b then x :: filter_by mask' xs' else filter_by mask' xs'
  | _, _ => []
  end.

(** [df[mask].copy()] *)
Definition df_filter (df : DataFrame) (mask : list bool) : DataFrame :=
  {| df_index := filter_by mask (df_index df);
     df_columns := map (fun cv => (fst cv, filter_by mask (snd cv))) (df_columns df) |}.

(** [df[c] = v] for a scalar [v]: broadcast to every row. *)
Definition df_setitem_scalar (df : DataFrame) (c : string) (v : pyval) : DataFrame :=
  {| df_index := df_index df;
     df_columns := cols_set c (repeat v (List.length (df_index df))) (df_columns df) |}.

Fixpoint set_where (idx : list Z) (label : Z) (v : pyval) (vs : list pyval) :
    list pyval :=
  match idx, vs with
  | l :: idx', x :: vs' => (if (l =? label)%Z then v else x) :: set_where idx' label v vs'
  | _, _ => vs
  end.

Fixpoint cols_update (c : string) (f : list pyval -> list pyval)
    (cols : list (string * list pyval)) : list (string * list pyval) :=
  match cols with
  | [] => []
  | (c', vs) :: cols' =>
      if String.eqb c c' then (c', f vs) :: cols' else (c', vs) :: cols_update c f cols'
  end.

(** [df.at[label, c] = v] on an existing column: every row carrying the
    label is written (with unique labels, the one row; with repeated labels
    pandas falls back to [.loc], which writes all of them). *)
Definition df_at_set (df : DataFrame) (label : Z) (c : string) (v : pyval) :
    DataFrame :=
  {| df_index := df_index df;
     df_columns := cols_update c (set_where (df_index df) label v) (df_columns df) |}.

Definition github_fields : list (string * string) :=
  [("github_created_at", "created_at");
   ("github_updated_at", "updated_at");
   ("github_public_repos", "public_repos")].

(** [for index, row in github_users.iterrows():] over the labels and the
    [github_username] cells, the table being threaded through the loop. *)
Fixpoint github_rows (token : option string) (df : DataFrame)
    (rows : list (Z * pyval)) (net : list (Net Dict)) (tr : list event) :
    Res Dict DataFrame :=
  match rows with
  | [] => Ok df net tr
  | (label, username) :: rows' =>
      match get_github_user (py_str username) token net tr with
      | Ok user_data net' tr' =>
          let df' :=
            match user_data with
            | Some d =>
                if dict_truthy d then
                  fold_left (fun acc f => df_at_set acc label (fst f) (dict_get d (snd f)))
                            github_fields df
                else df
            | None => df
            end in
          github_rows token df' rows' net' tr'
      | Exc e n t => Exc e n t
      | Stuck t => Stuck t
      end
  end.

Definition github_mask (df : DataFrame) (filter_connected_profiles : bool) :
    exn + list bool :=
  if filter_connected_profiles then
    match df_col df "category" with
    | None => inl (KeyError "category")
    | Some cats =>
        match df_col df "github_username" with
        | None => inl (KeyError "github_username")
        | Some ghs => inr (map (fun p => is_connected (fst p) && notna (snd p))
                               (combine cats ghs))
        end
    end
  else
    match df_col df "github_username" with
    | None => inl (KeyError "github_username")
    | Some ghs => inr (map notna ghs)
    end.

(** A new table is allocated in the store and its reference returned. *)
Definition update_with_github (token : option string) (st : Store)
    (followers_df : nat) (filter_connected_profiles : bool)
    (net : list (Net Dict)) (tr : list event) : Res Dict (Store * nat) :=
  match nth_error st followers_df with
  | None => Exc TypeError net tr
  | Some df =>
      match github_mask df filter_connected_profiles with
      | inl e => Exc e net tr
      | inr mask =>
          let gu := df_filter df mask in
          let gu := fold_left (fun acc f => df_setitem_scalar acc (fst f) PNone)
                              github_fields gu in
          let names := match df_col gu "github_username" with
                       | Some vs => vs | None => [] end in
          match github_rows token gu (combine (df_index gu) names) net tr with
          | Ok gu' net' tr' => Ok (st ++ [gu'], List.length st) net' tr'
          | Exc e n t => Exc e n t
          | Stuck t => Stuck t
          end
      end
  end.

(** ** [load_users_with_details] (api_client.py, lines 128-152) *)

(** [d.update(e)] for one key: an existing key keeps its position and takes
    the new value, a new key is appended. *)
Definition dict_set (d : Dict) (k : string) (v : pyval) : Dict :=
  if existsb (fun kv => String.eqb k (fst kv)) d
  then map (fun kv => if String.eqb k (fst kv) then (fst kv, v) else kv) d
  else d ++ [(k, v)].

(** [d.update(e)], the keys of [e] taken in order. *)
Definition dict_update (d e : Dict) : Dict :=
  fold_left (fun acc kv => dict_set acc (fst kv) (snd kv)) e d.

(** [row.to_dict()] for the row at position [i] of [df.iterrows()]: the
    column names with that row's cells. *)
Definition row_to_dict (df : DataFrame) (i : nat) : Dict :=
  map (fun cv => (fst cv, nth i (snd cv) PNone)) (df_columns df).

(** The rows of [df.iterrows()], in order. *)
Definition df_rows (df : DataFrame) : list Dict :=
  map (row_to_dict df) (seq 0 (List.length (df_index df))).

(** The [for _, row in users_df.iterrows():] loop building [extended_data];
    [row["username"]] raises [KeyError] when the table has no such column. *)
Fixpoint users_details_rows (rows : list Dict) (net : list (Net Dict))
    (tr : list event) : Res Dict (list Dict) :=
  match rows with
  | [] => Ok [] net tr
  | row :: rows' =>
      match dict_lookup "username" row with
      | None => Exc (KeyError "username") net tr
      | Some username =>
          match get_user_details (py_str username) net tr with
          | Ok user_details net' tr' =>
              match users_details_rows rows' net' tr' with
              | Ok ds n t => Ok (dict_update row user_details :: ds) n t
              | Exc e n t => Exc e n t
              | Stuck t => Stuck t
              end
          | Exc e n t => Exc e n t
          | Stuck t => Stuck t
          end
      end
  end.

(** [users_df] is [None] or a table; with [None] the followers are loaded
    first, from the answers [followers_net] of the followers endpoint, and
    the detail lookups then use [net].  The input table is only read. *)
Definition load_users_with_details (users_df : option DataFrame)
    (followers_net : list (Net (list Dict))) (net : list (Net Dict))
    (tr : list event) : Res Dict DataFrame :=
  let run (df : DataFrame) (tr : list event) :=
    match users_details_rows (df_rows df) net tr with
    | Ok extended_data n t => Ok (df_from_records extended_data) n t
    | Exc e n t => Exc e n t
    | Stuck t => Stuck t
    end in
  match users_df with
  | Some df => run df tr
  | None =>
      match load_followers_to_dataframe followers_net tr with
      | Ok df _ tr' => run df tr'
      | Exc e _ t => Exc e net t
      | Stuck t => Stuck t
      end
  end.

(** ** Auxiliary definitions for the properties *)

(** What the loop's accumulators hold after the articles [arts]. *)
Definition summary_inv (acc : Summary) (arts : list Article) : Prop :=
  article_titles acc = map title arts /\
  tags acc = map tag_list_or_nil arts /\
  article_reading_time_minutes acc = map reading_time_minutes arts /\
  article_comments_counts acc = map comments_count arts /\
  article_positive_reactions_counts acc = map positive_reactions_count arts /\
  article_published_at acc = map published_at arts /\
  NoDup (unique_tags acc) /\
  (forall t, In t (unique_tags acc) <-> exists l, In l (tags acc) /\ In t l).

(** The shape of a returned summary: one entry per article in every list. *)
Definition summary_shape (s : Summary) (arts : list Article) : Prop :=
  article_count s = Z.of_nat (List.length arts) /\ summary_inv s arts.

Definition has_row_keys (a : Article) : Prop :=
  title a <> None /\ published_at a <> None /\ public_reactions_count a <> None.

Definition article_row_of (a : Article) : Dict :=
  match article_row a with inr r => r | inl _ => [] end.

(** The answers to the page requests: successful non-empty pages. *)
Definition ok_pages {B : Type} (pages : list (string * list B)) : list (Net (list B)) :=
  map (fun p => Resp 200 (fst p) (Some (snd p))) pages.

Definition page_urls (base : string) (suffix : string) (first : nat) (n : nat) :
    list event :=
  map (fun k => Get (base ++ str_of_nat k ++ suffix)%string) (seq first n).

Definition transport_failures {B : Type} (k1 k2 k3 k4 k5 : req_exc)
    (rest : list (Net B)) : list (Net B) :=
  Transport k1 :: Transport k2 :: Transport k3 :: Transport k4 :: Transport k5 :: rest.

(** The trace of five attempts, each of one failing request to [u]. *)
Definition five_attempts (u : string) : list event :=
  [Get u; BackingOff 1; Get u; BackingOff 2; Get u; BackingOff 3;
   Get u; BackingOff 4; Get u; GivingUp 5].

Definition details_url (username : string) : string :=
  (BASE_URL ++ "/users/by_username?url=" ++ username)%string.

Definition github_url (username : string) : string :=
  ("https://api.github.com/users/" ++ username)%string.

(** The events of one answered-429 iteration. *)
Definition details_429 (username : string) : list event :=
  [Get (details_url username);
   Print [PStr "Rate limit reached for "; PStr username;
          PStr ". Retrying after 1 second..."];
   Sleep 1].

Definition github_429 (username : string) : list event :=
  [Get (github_url username);
   Print [PStr "Rate limit exceeded. Waiting before retrying..."];
   Sleep 60].

(** No answer of [net] makes a JSON routine raise a [RequestException]:
    the transport layer never fails, and every 200 response has a JSON body
    (only a 200 response's body is decoded). *)
Definition no_request_failure {B : Type} (net : list (Net B)) : Prop :=
  Forall (fun r => match r with
                   | Transport _ => False
                   | Resp status _ None => status <> 200%Z
                   | Resp _ _ (Some _) => True
                   end) net.

(** The summaries obtained by calling the summary routine on each user name
    in turn, each call starting where the previous one left the network. *)
Inductive per_row_summaries :
    list pyval -> list (Net (list Article)) -> list event ->
    list Summary -> list (Net (list Article)) -> list event -> Prop :=
| prs_nil net tr : per_row_summaries [] net tr [] net tr
| prs_cons u us net tr s net1 tr1 ss net2 tr2 :
    get_user_articles_summary (py_str u) net tr = Ok s net1 tr1 ->
    per_row_summaries us net1 (tr1 ++ [summary_print u s]) ss net2 tr2 ->
    per_row_summaries (u :: us) net tr (s :: ss) net2 tr2.

(** The results of the per-row GitHub lookups, one per row, each call
    starting where the previous one left the network. *)
Inductive per_row_github (token : option string) :
    list (Z * pyval) -> list (Net Dict) -> list event ->
    list (option Dict) -> list (Net Dict) -> list event -> Prop :=
| prg_nil net tr : per_row_github token [] net tr [] net tr
| prg_cons label u rows net tr r net1 tr1 rs net2 tr2 :
    get_github_user (py_str u) token net tr = Ok r net1 tr1 ->
    per_row_github token rows net1 tr1 rs net2 tr2 ->
    per_row_github token ((label, u) :: rows) net tr (r :: rs) net2 tr2.

(** The writes of lines 97-102 for one row's lookup result. *)
Definition github_write (df : DataFrame) (label : Z) (r : option Dict) : DataFrame :=
  match r with
  | Some d =>
      if dict_truthy d then
        fold_left (fun acc f => df_at_set acc label (fst f) (dict_get d (snd f)))
                  github_fields df
      else df
  | None => df
  end.

Fixpoint github_apply (df : DataFrame) (rows : list (Z * pyval)) (rs : list (option Dict)) :
    DataFrame :=
  match rows, rs with
  | (label, _) :: rows', r :: rs' => github_apply (github_write df label r) rows' rs'
  | _, _ => df
  end.

Definition lookup_failed (r : option Dict) : bool :=
  match r with Some d => negb (dict_truthy d) | None => true end.

(** The cell of column [c] at row position [i]. *)
Definition cell (df : DataFrame) (c : string) (i : nat) : option pyval :=
  match df_col df c with Some vs => nth_error vs i | None => None end.

(** The filtered copy with the three new columns, before the lookups. *)
Definition github_base (df : DataFrame) (mask : list bool) : DataFrame :=
  fold_left (fun acc f => df_setitem_scalar acc (fst f) PNone) github_fields
            (df_filter df mask).

Definition github_base_rows (gu : DataFrame) : list (Z * pyval) :=
  combine (df_index gu)
          (match df_col gu "github_username" with Some vs => vs | None => [] end).

(** The trace a routine ends with, whatever its outcome. *)
Definition res_trace {B A : Type} (r : Res B A) : list event :=
  match r with Ok _ _ t => t | Exc _ _ t => t | Stuck t => t end.

(** The number of HTTP requests recorded in a trace. *)
Fixpoint count_gets (tr : list event) : nat :=
  match tr with
  | [] => 0
  | Get _ :: tr' => S (count_gets tr')
  | _ :: tr' => count_gets tr'
  end.

(** The keys of every row of the articles table. *)
Definition article_row_keys : list string := ["title"; "created_at"; "public_reactions_count"].

(** The statistics obtained by scraping each row's user in turn. *)
Inductive per_row_stats (scrape : string -> option Stats) :
    list (pyval * pyval) -> list (Net unit) -> list event ->
    list Stats -> list (Net unit) -> list event -> Prop :=
| prst_nil net tr : per_row_stats scrape [] net tr [] net tr
| prst_cons u titles rows net tr s net1 tr1 ss net2 tr2 :
    get_user_stats scrape (py_str u) net tr = Ok s net1 tr1 ->
    per_row_stats scrape rows net1
      (tr1 ++ [Print ([PStr (py_str u); titles] ++ map (fun f => snd f s) stats_fields)])
      ss net2 tr2 ->
    per_row_stats scrape ((u, titles) :: rows) net tr (s :: ss) net2 tr2.

(** The user details obtained for each row in turn. *)
Inductive per_row_details :
    list Dict -> list (Net Dict) -> list event ->
    list Dict -> list (Net Dict) -> list event -> Prop :=
| prd_nil net tr : per_row_details [] net tr [] net tr
| prd_cons row rows u net tr d net1 tr1 ds net2 tr2 :
    dict_lookup "username" row = Some u ->
    get_user_details (py_str u) net tr = Ok d net1 tr1 ->
    per_row_details rows net1 tr1 ds net2 tr2 ->
    per_row_details (row :: rows) net tr (d :: ds) net2 tr2.

(** * Properties *)

(** ** The retry decorator *)

Lemma backoff_retry_ok {B A : Type} (T : list (Net B) -> list event -> Res B A) :
  forall left tries net tr a net' tr',
    backoff_retry left tries T net tr = Ok a net' tr' ->
    exists net0 tr0, T net0 tr0 = Ok a net' tr'.
Proof.
  induction left as [|left IH]; intros tries net tr a net' tr' H; simpl in H;
    destruct (T net tr) as [a0 n0 t0|e n0 t0|t0] eqn:HT; try discriminate.
  - injection H as <- <- <-. eauto.
  - destruct (is_request_exception e); discriminate.
  - injection H as <- <- <-. eauto.
  - destruct (is_request_exception e); [eapply IH; exact H | discriminate].
Qed.

(** A target whose call does not raise a [RequestException] is called once. *)
Lemma backoff_retry_single {B A : Type} (T : list (Net B) -> list event -> Res B A)
    left tries net tr :
  (forall e n t, T net tr = Exc e n t -> is_request_exception e = false) ->
  backoff_retry left tries T net tr = T net tr.
Proof.
  intros H. destruct left; simpl; destruct (T net tr) eqn:HT; auto;
    rewrite (H _ _ _ eq_refl); reflexivity.
Qed.

(** ** Summaries: the parallel lists *)

Lemma set_add_In x s t : In t (set_add x s) <-> In t s \/ t = x.
Proof.
  unfold set_add. destruct (existsb (String.eqb x) s) eqn:E.
  - apply existsb_exists in E as [y [Hy Hxy]]. apply String.eqb_eq in Hxy; subst y.
    split; [auto | intros [H|H]; subst; auto].
  - rewrite in_app_iff. simpl. split; intros [H|H]; auto.
    + destruct H as [H|[]]; auto.
Qed.

Lemma set_add_NoDup x s : NoDup s -> NoDup (set_add x s).
Proof.
  unfold set_add. destruct (existsb (String.eqb x) s) eqn:E; intros Hs; auto.
  apply NoDup_app; auto.
  - constructor; [intros []| constructor].
  - intros y Hy [Hyx|[]]; subst y.
    assert (existsb (String.eqb x) s = true) as E'
      by (apply existsb_exists; exists x; split; auto; apply String.eqb_refl).
    congruence.
Qed.

Lemma set_update_spec l : forall s,
  NoDup s ->
  NoDup (set_update s l) /\ (forall t, In t (set_update s l) <-> In t s \/ In t l).
Proof.
  unfold set_update. induction l as [|x l IH]; intros s Hs; simpl.
  - split; auto. intros t; tauto.
  - destruct (IH (set_add x s) (set_add_NoDup x s Hs)) as [H1 H2].
    split; auto. intros t. rewrite H2, set_add_In. intuition.
Qed.

Lemma summary_inv_empty : summary_inv empty_summary [].
Proof.
  repeat split; simpl; try constructor; intros H; [contradiction|].
  destruct H as [l [[] _]].
Qed.

Lemma summary_step_inv acc arts a :
  summary_inv acc arts -> summary_inv (summary_step acc a) (arts ++ [a]).
Proof.
  intros (H1 & H2 & H3 & H4 & H5 & H6 & H7 & H8).
  destruct (set_update_spec (tag_list_or_nil a) (unique_tags acc) H7) as [U1 U2].
  unfold summary_inv; simpl; rewrite !map_app, H1, H2, H3, H4, H5, H6; simpl.
  repeat split; auto; intros Ht.
  - apply U2 in Ht as [Ht|Ht].
    + apply H8 in Ht as [l [Hl Htl]]. rewrite H2 in Hl.
      exists l. rewrite in_app_iff. auto.
    + exists (tag_list_or_nil a). rewrite in_app_iff. simpl. auto.
  - apply U2. destruct Ht as [l [Hl Htl]]. apply in_app_iff in Hl as [Hl|[Hl|[]]].
    + left. apply H8. rewrite H2. eauto.
    + subst l. auto.
Qed.

Lemma summary_articles_inv arts : forall acc done tr,
  summary_inv acc done ->
  summary_inv (fst (summary_articles acc arts tr)) (done ++ arts).
Proof.
  induction arts as [|a arts IH]; intros acc done tr H; simpl.
  - rewrite app_nil_r. exact H.
  - replace (done ++ a :: arts) with ((done ++ [a]) ++ arts)
      by (rewrite <- app_assoc; reflexivity).
    apply IH, summary_step_inv, H.
Qed.

Lemma summary_result_shape acc arts :
  summary_inv acc arts -> summary_shape (summary_result acc) arts.
Proof.
  intros H. split.
  - simpl. destruct H as [H1 _]. rewrite H1, length_map. reflexivity.
  - exact H.
Qed.

Lemma summary_loop_shape username : forall net page acc done tr s net' tr',
  summary_inv acc done ->
  summary_loop username page acc net tr = Ok s net' tr' ->
  exists arts, summary_shape s arts.
Proof.
  induction net as [|r net IH]; intros page acc done tr s net' tr' Hinv H;
    simpl in H; [discriminate|].
  destruct r as [k|status text articles]; [discriminate|].
  destruct (status =? 200)%Z.
  - destruct articles as [[|a0 arts0]|]; [| |discriminate].
    + injection H as <- _ _. exists done. apply summary_result_shape, Hinv.
    + destruct (summary_articles acc (a0 :: arts0) _) as [acc' tr0] eqn:E.
      eapply IH; [|exact H].
      pose proof (summary_articles_inv (a0 :: arts0) acc done) as Ha.
      match type of E with summary_articles _ _ ?t = _ =>
        specialize (Ha t Hinv); rewrite E in Ha; exact Ha end.
  - destruct (status =? 429)%Z.
    + eapply IH; [exact Hinv | exact H].
    + injection H as <- _ _. exists []. split; [reflexivity | apply summary_inv_empty].
Qed.

(** C1: every summary the routine returns has its parallel per-article lists
    indexed by one common list of articles, of length [article_count], and
    [unique_tags] is, as a set, the union of the per-article tag lists. *)
Theorem get_user_articles_summary_parallel_lists :
  forall username net tr s net' tr',
    get_user_articles_summary username net tr = Ok s net' tr' ->
    exists arts : list Article,
      article_count s = Z.of_nat (List.length arts) /\
      article_titles s = map title arts /\
      tags s = map tag_list_or_nil arts /\
      article_reading_time_minutes s = map reading_time_minutes arts /\
      article_comments_counts s = map comments_count arts /\
      article_positive_reactions_counts s = map positive_reactions_count arts /\
      article_published_at s = map published_at arts /\
      NoDup (unique_tags s) /\
      (forall t, In t (unique_tags s) <-> exists l, In l (tags s) /\ In t l).
Proof.
  intros username net tr s net' tr' H.
  apply backoff_retry_ok in H as [net0 [tr0 H]].
  destruct (summary_loop_shape username net0 1 empty_summary [] tr0 s net' tr'
              summary_inv_empty H) as [arts [Hc Hi]].
  exists arts. split; [exact Hc | exact Hi].
Qed.

(** ** Paginated collectors *)

Lemma article_rows_ok data :
  Forall has_row_keys data -> article_rows data = inr (map article_row_of data).
Proof.
  induction 1 as [|a data [H1 [H2 H3]] _ IH]; simpl; auto.
  unfold article_row_of, article_row.
  destruct (title a); [|congruence]. destruct (published_at a); [|congruence].
  destruct (public_reactions_count a); [|congruence]. rewrite IH. reflexivity.
Qed.

Lemma string_append_nil_r (x : string) : (x ++ "")%string = x.
Proof. induction x as [|c x IH]; simpl; [reflexivity | rewrite IH; reflexivity]. Qed.

Lemma load_articles_loop_pages (pages : list (string * list Article)) :
  forall page acc tail tr,
    Forall (fun p => snd p <> [] /\ Forall has_row_keys (snd p)) pages ->
    load_articles_loop page acc (ok_pages pages ++ tail) tr =
    load_articles_loop (page + List.length pages)
      (acc ++ List.concat (map (fun p => map article_row_of (snd p)) pages)) tail
      (tr ++ page_urls (BASE_URL ++ "/articles/me?page=") "" page (List.length pages)).
Proof.
  induction pages as [|[t pg] pages IH]; intros page acc tail tr H.
  - simpl. rewrite !app_nil_r, Nat.add_0_r. reflexivity.
  - inversion H as [|? ? [Hne Hk] Hrest]; subst.
    simpl in *; destruct pg as [|a pg]; [congruence|].
    change (ok_pages ((t, a :: pg) :: pages) ++ tail)
      with (Resp 200 t (Some (a :: pg)) :: (ok_pages pages ++ tail)).
    remember (a :: pg) as pg' eqn:Epg.
    simpl load_articles_loop at 1. rewrite Epg, <- Epg, (article_rows_ok _ Hk).
    rewrite (IH (S page)) by exact Hrest.
    simpl List.length. rewrite <- plus_n_Sm, <- !app_assoc. f_equal.
    f_equal. unfold page_urls. cbn [seq map app]. rewrite string_append_nil_r.
    reflexivity.
Qed.

Lemma load_followers_loop_pages (pages : list (string * list Dict)) :
  forall page acc tail tr,
    Forall (fun p => snd p <> []) pages ->
    load_followers_loop page acc (ok_pages pages ++ tail) tr =
    load_followers_loop (page + List.length pages)
      (acc ++ List.concat (map snd pages)) tail
      (tr ++ page_urls (BASE_URL ++ "/followers/users?page=") "&per_page=1000"
                       page (List.length pages)).
Proof.
  induction pages as [|[t pg] pages IH]; intros page acc tail tr H.
  - simpl. rewrite !app_nil_r, Nat.add_0_r. reflexivity.
  - inversion H as [|? ? Hne Hrest]; subst.
    simpl in *; destruct pg as [|a pg]; [congruence|].
    change (ok_pages ((t, a :: pg) :: pages) ++ tail)
      with (Resp 200 t (Some (a :: pg)) :: (ok_pages pages ++ tail)).
    simpl load_followers_loop at 1.
    rewrite (IH (S page)) by exact Hrest.
    simpl List.length. rewrite <- plus_n_Sm, <- !app_assoc. f_equal.
Qed.

Lemma df_from_records_rows recs :
  List.length (df_index (df_from_records recs)) = List.length recs.
Proof. simpl. rewrite length_map, length_seq. reflexivity. Qed.

(** C2: when the endpoint serves successful non-empty pages and then an
    empty page, each collector returns the table of all the pages' items,
    page after page and in item order within a page, with as many rows as
    the pages have items in total.  (For the articles, each item is required
    to carry the three keys that the row construction subscripts.) *)
Theorem paginated_collectors_concatenate :
  (forall (pages : list (string * list Article)) text tail tr,
     Forall (fun p => snd p <> [] /\ Forall has_row_keys (snd p)) pages ->
     exists df tr',
       load_articles_to_dataframe (ok_pages pages ++ Resp 200 text (Some []) :: tail) tr
         = Ok df tail tr' /\
       df = df_from_records (List.concat (map (fun p => map article_row_of (snd p)) pages)) /\
       List.length (df_index df) = list_sum (map (fun p => List.length (snd p)) pages)) /\
  (forall (pages : list (string * list Dict)) text tail tr,
     Forall (fun p => snd p <> []) pages ->
     exists df tr',
       load_followers_to_dataframe (ok_pages pages ++ Resp 200 text (Some []) :: tail) tr
         = Ok df tail tr' /\
       df = df_from_records (List.concat (map snd pages)) /\
       List.length (df_index df) = list_sum (map (fun p => List.length (snd p)) pages)).
Proof.
  split.
  - intros pages text tail tr H.
    pose proof (load_articles_loop_pages pages 1 [] (Resp 200 text (Some []) :: tail) tr H) as E.
    exists (df_from_records (List.concat (map (fun p => map article_row_of (snd p)) pages))).
    eexists. unfold load_articles_to_dataframe, on_exception.
    rewrite backoff_retry_single.
    + rewrite E. split; [reflexivity|]. split; [reflexivity|].
      rewrite df_from_records_rows, length_concat, map_map.
      f_equal. apply map_ext. intros p. apply length_map.
    + intros e n t Hx. rewrite E in Hx. simpl in Hx. discriminate.
  - intros pages text tail tr H.
    pose proof (load_followers_loop_pages pages 1 [] (Resp 200 text (Some []) :: tail) tr H) as E.
    exists (df_from_records (List.concat (map snd pages))).
    eexists. unfold load_followers_to_dataframe, on_exception.
    rewrite backoff_retry_single.
    + rewrite E. split; [reflexivity|]. split; [reflexivity|].
      rewrite df_from_records_rows, length_concat, map_map. reflexivity.
    + intros e n t Hx. rewrite E in Hx. simpl in Hx. discriminate.
Qed.

(** C8: a failing page request (any status other than 200) after [k]
    successful pages ends the collection: the status and body are printed
    and the rows of the [k] pages are returned as a normal result. *)
Theorem paginated_collectors_partial_on_error :
  (forall (pages : list (string * list Article)) status text payload tail tr,
     Forall (fun p => snd p <> [] /\ Forall has_row_keys (snd p)) pages ->
     status <> 200%Z ->
     load_articles_to_dataframe (ok_pages pages ++ Resp status text payload :: tail) tr
     = Ok (df_from_records (List.concat (map (fun p => map article_row_of (snd p)) pages)))
          tail
          (tr ++ page_urls (BASE_URL ++ "/articles/me?page=") "" 1 (S (List.length pages))
              ++ [Print [PStr "Failed to load articles: "; PInt status;
                         PStr " - "; PStr text]])) /\
  (forall (pages : list (string * list Dict)) status text payload tail tr,
     Forall (fun p => snd p <> []) pages ->
     status <> 200%Z ->
     load_followers_to_dataframe (ok_pages pages ++ Resp status text payload :: tail) tr
     = Ok (df_from_records (List.concat (map snd pages))) tail
          (tr ++ page_urls (BASE_URL ++ "/followers/users?page=") "&per_page=1000"
                           1 (S (List.length pages))
              ++ [Print [PStr "Failed to load followers: "; PInt status;
                         PStr " - "; PStr text]])).
Proof.
  split.
  - intros pages status text payload tail tr H Hs.
    rewrite <- Z.eqb_neq in Hs.
    pose proof (load_articles_loop_pages pages 1 [] (Resp status text payload :: tail) tr H)
      as E.
    unfold load_articles_to_dataframe, on_exception.
    rewrite backoff_retry_single.
    + rewrite E. simpl load_articles_loop.
      rewrite Hs. simpl negb. cbv iota.
      unfold page_urls. rewrite seq_S, map_app, <- !app_assoc.
      cbn [map app]. rewrite string_append_nil_r. reflexivity.
    + intros e n t Hx. rewrite E in Hx. simpl in Hx.
      rewrite Hs in Hx. discriminate.
  - intros pages status text payload tail tr H Hs.
    rewrite <- Z.eqb_neq in Hs.
    pose proof (load_followers_loop_pages pages 1 [] (Resp status text payload :: tail) tr H)
      as E.
    unfold load_followers_to_dataframe, on_exception.
    rewrite backoff_retry_single.
    + rewrite E. simpl load_followers_loop.
      rewrite Hs. simpl negb. cbv iota.
      unfold page_urls. rewrite seq_S, map_app, <- !app_assoc. reflexivity.
    + intros e n t Hx. rewrite E in Hx. simpl in Hx.
      rewrite Hs in Hx. discriminate.
Qed.

(** ** Transport failures on every attempt *)

Lemma on_exception_five_failures {B A : Type}
    (T : list (Net B) -> list event -> Res B A) (u : string) :
  (forall k rest tr, T (Transport k :: rest) tr = Exc (RequestException k) rest (tr ++ [Get u])) ->
  forall k1 k2 k3 k4 k5 rest tr,
    on_exception 5 T (transport_failures k1 k2 k3 k4 k5 rest) tr =
    Exc (RequestException k5) rest (tr ++ five_attempts u).
Proof.
  intros H k1 k2 k3 k4 k5 rest tr.
  unfold on_exception, transport_failures. simpl Nat.sub.
  cbn [backoff_retry]. rewrite H. cbn [is_request_exception].
  cbn [backoff_retry]. rewrite H. cbn [is_request_exception].
  cbn [backoff_retry]. rewrite H. cbn [is_request_exception].
  cbn [backoff_retry]. rewrite H. cbn [is_request_exception].
  cbn [backoff_retry]. rewrite H. cbn [is_request_exception].
  rewrite <- !app_assoc. reflexivity.
Qed.

(** C5: for each routine under the retry decorator, when the transport
    layer raises on every attempt, exactly five attempts are made (each
    consumes one failing request, the rest of the network is untouched),
    and then the last exception is raised to the caller. *)
Theorem retry_gives_up_after_five_attempts :
  forall k1 k2 k3 k4 k5 tr,
    (forall u (rest : list (Net Dict)),
       get_user_details u (transport_failures k1 k2 k3 k4 k5 rest) tr =
       Exc (RequestException k5) rest
           (tr ++ five_attempts (BASE_URL ++ "/users/by_username?url=" ++ u))) /\
    (forall u token (rest : list (Net Dict)),
       get_github_user u token (transport_failures k1 k2 k3 k4 k5 rest) tr =
       Exc (RequestException k5) rest
           (tr ++ five_attempts ("https://api.github.com/users/" ++ u))) /\
    (forall u (rest : list (Net (list Article))),
       get_user_articles_summary u (transport_failures k1 k2 k3 k4 k5 rest) tr =
       Exc (RequestException k5) rest
           (tr ++ five_attempts (BASE_URL ++ "/articles?username=" ++ u ++ "&page=1"))) /\
    (forall (rest : list (Net (list Article))),
       load_articles_to_dataframe (transport_failures k1 k2 k3 k4 k5 rest) tr =
       Exc (RequestException k5) rest
           (tr ++ five_attempts (BASE_URL ++ "/articles/me?page=1"))) /\
    (forall (rest : list (Net (list Dict))),
       load_followers_to_dataframe (transport_failures k1 k2 k3 k4 k5 rest) tr =
       Exc (RequestException k5) rest
           (tr ++ five_attempts (BASE_URL ++ "/followers/users?page=1&per_page=1000"))) /\
    (forall scrape u (rest : list (Net unit)),
       get_user_stats scrape u (transport_failures k1 k2 k3 k4 k5 rest) tr =
       Exc (RequestException k5) rest
           (tr ++ five_attempts ("https://dev.to/" ++ u ++ "/"))).
Proof.
  intros k1 k2 k3 k4 k5 tr.
  repeat split; intros;
    (apply on_exception_five_failures; intros; reflexivity).
Qed.

(** ** Rate-limit answers of the per-entity lookups *)

Lemma backoff_retry_same_first {B A : Type} (T : list (Net B) -> list event -> Res B A)
    left tries net tr net' tr' :
  T net tr = T net' tr' ->
  backoff_retry left tries T net tr = backoff_retry left tries T net' tr'.
Proof. intros H. destruct left; simpl; rewrite H; reflexivity. Qed.

Lemma get_user_details_loop_429 username text payload n : forall rest tr,
  get_user_details_loop username (repeat (Resp 429 text payload) n ++ rest) tr =
  get_user_details_loop username rest (tr ++ List.concat (repeat (details_429 username) n)).
Proof.
  induction n as [|n IH]; intros rest tr; simpl.
  - rewrite app_nil_r. reflexivity.
  - rewrite IH, <- !app_assoc. reflexivity.
Qed.

Lemma get_github_user_loop_429 username text payload n : forall rest tr,
  get_github_user_loop username (repeat (Resp 429 text payload) n ++ rest) tr =
  get_github_user_loop username rest (tr ++ List.concat (repeat (github_429 username) n)).
Proof.
  induction n as [|n IH]; intros rest tr; simpl.
  - rewrite app_nil_r. reflexivity.
  - rewrite IH, <- !app_assoc. reflexivity.
Qed.

(** C7 (amended): on the answers 429, 429, 200 each lookup sleeps exactly
    twice (1 s for [get_user_details], 60 s for [get_github_user]) and then
    returns: [get_user_details] the eight normalized fields of the 200
    payload, [get_github_user] the decoded 200 payload itself.  A 429 is
    retried with no bound: [n] answers 429 only add [n] sleep iterations, and
    while the endpoint answers 429 the routine does not return. *)
Theorem rate_limit_lookups_sleep_and_retry :
  (forall u t1 t2 t3 p1 p2 d rest tr,
     get_user_details u (Resp 429 t1 p1 :: Resp 429 t2 p2 :: Resp 200 t3 (Some d) :: rest) tr =
     Ok (normalize_user_details d) rest
        (tr ++ details_429 u ++ details_429 u ++ [Get (details_url u)])) /\
  (forall u token t1 t2 t3 p1 p2 d rest tr,
     get_github_user u token (Resp 429 t1 p1 :: Resp 429 t2 p2 :: Resp 200 t3 (Some d) :: rest) tr =
     Ok (Some d) rest
        (tr ++ github_429 u ++ github_429 u ++ [Get (github_url u); Print [PDict d]])) /\
  (forall u text payload n rest tr,
     get_user_details u (repeat (Resp 429 text payload) n ++ rest) tr =
     get_user_details u rest (tr ++ List.concat (repeat (details_429 u) n))) /\
  (forall u token text payload n rest tr,
     get_github_user u token (repeat (Resp 429 text payload) n ++ rest) tr =
     get_github_user u token rest (tr ++ List.concat (repeat (github_429 u) n))) /\
  (forall u text payload n tr, exists tr',
     get_user_details u (repeat (Resp 429 text payload) n) tr = Stuck tr') /\
  (forall u token text payload n tr, exists tr',
     get_github_user u token (repeat (Resp 429 text payload) n) tr = Stuck tr').
Proof.
  split; [|split; [|split; [|split; [|split]]]].
  - intros. unfold get_user_details, on_exception.
    rewrite backoff_retry_single by (intros e n t Hx; simpl in Hx; discriminate).
    simpl. rewrite <- !app_assoc. reflexivity.
  - intros. unfold get_github_user, on_exception.
    rewrite backoff_retry_single by (intros e n t Hx; simpl in Hx; discriminate).
    simpl. rewrite <- !app_assoc. reflexivity.
  - intros. unfold get_user_details, on_exception.
    apply backoff_retry_same_first, get_user_details_loop_429.
  - intros. unfold get_github_user, on_exception.
    apply backoff_retry_same_first, get_github_user_loop_429.
  - intros. unfold get_user_details, on_exception.
    rewrite backoff_retry_single.
    + rewrite <- (app_nil_r (repeat _ n)), get_user_details_loop_429. simpl. eauto.
    + intros e m t Hx. rewrite <- (app_nil_r (repeat _ n)), get_user_details_loop_429 in Hx.
      simpl in Hx. discriminate.
  - intros. unfold get_github_user, on_exception.
    rewrite backoff_retry_single.
    + rewrite <- (app_nil_r (repeat _ n)), get_github_user_loop_429. simpl. eauto.
    + intros e m t Hx. rewrite <- (app_nil_r (repeat _ n)), get_github_user_loop_429 in Hx.
      simpl in Hx. discriminate.
Qed.

(** C7 (counterexample): on 429, 429, 200 [get_github_user] does not return
    a normalized field subset: it returns the whole payload, here with a key
    ["bio"] that is none of the fields it documents. *)
Lemma get_github_user_returns_raw_payload :
  let d := [("login", PStr "octo"); ("bio", PStr "hello")] in
  exists r tr,
    get_github_user "octo" None
      [Resp 429 "" (Some []); Resp 429 "" (Some []); Resp 200 "" (Some d)] [] = Ok (Some r) [] tr /\
    In "bio" (map fst r) /\ ~ In "bio" github_documented_keys.
Proof.
  intros d. exists d. eexists. split; [reflexivity|]. split.
  - simpl. auto.
  - simpl. intros H. repeat (destruct H as [H|H]; [discriminate H|]). exact H.
Qed.

(** ** HTTP error statuses and the retry decorator *)

Lemma get_user_details_loop_no_request u net : forall tr,
  no_request_failure net ->
  forall e n t, get_user_details_loop u net tr = Exc e n t -> is_request_exception e = false.
Proof.
  induction net as [|r net IH]; intros tr Hn; [intros e n t Hx; discriminate|].
  inversion Hn as [|? ? Hr Hn']; subst. destruct r as [k|status text d]; [contradiction|].
  intros e n t Hx; simpl in Hx.
  destruct (status =? 200)%Z eqn:Es.
  - destruct d as [d|]; [discriminate|]. exfalso. exact (Hr (proj1 (Z.eqb_eq _ _) Es)).
  - destruct (status =? 429)%Z; [eapply IH; [exact Hn' | exact Hx] | discriminate].
Qed.

Lemma get_github_user_loop_no_request u net : forall tr,
  no_request_failure net ->
  forall e n t, get_github_user_loop u net tr = Exc e n t -> is_request_exception e = false.
Proof.
  induction net as [|r net IH]; intros tr Hn; [intros e n t Hx; discriminate|].
  inversion Hn as [|? ? Hr Hn']; subst. destruct r as [k|status text d]; [contradiction|].
  intros e n t Hx; simpl in Hx.
  destruct (status =? 200)%Z eqn:Es.
  - destruct d as [d|]; [discriminate|]. exfalso. exact (Hr (proj1 (Z.eqb_eq _ _) Es)).
  - destruct (status =? 404)%Z; [discriminate|].
    destruct (status =? 429)%Z; [eapply IH; [exact Hn' | exact Hx] | discriminate].
Qed.

Lemma summary_loop_no_request u net : forall page acc tr,
  no_request_failure net ->
  forall e n t, summary_loop u page acc net tr = Exc e n t -> is_request_exception e = false.
Proof.
  induction net as [|r net IH]; intros page acc tr Hn; [intros e n t Hx; discriminate|].
  inversion Hn as [|? ? Hr Hn']; subst. destruct r as [k|status text arts]; [contradiction|].
  intros e n t Hx; simpl in Hx.
  destruct (status =? 200)%Z eqn:Es.
  - destruct arts as [[|a arts]|]; [discriminate| |].
    + destruct (summary_articles _ _ _) as [acc' tr'].
      eapply IH; [exact Hn' | exact Hx].
    + exfalso. exact (Hr (proj1 (Z.eqb_eq _ _) Es)).
  - destruct (status =? 429)%Z; [eapply IH; [exact Hn' | exact Hx] | discriminate].
Qed.

Lemma article_rows_no_request data e : article_rows data = inl e -> is_request_exception e = false.
Proof.
  induction data as [|a data IH]; simpl; [discriminate|].
  unfold article_row.
  destruct (title a); [|intros H; injection H as <-; reflexivity].
  destruct (published_at a); [|intros H; injection H as <-; reflexivity].
  destruct (public_reactions_count a); [|intros H; injection H as <-; reflexivity].
  destruct (article_rows data); [|discriminate]. intros H; injection H as <-. auto.
Qed.

Lemma load_articles_loop_no_request net : forall page acc tr,
  no_request_failure net ->
  forall e n t, load_articles_loop page acc net tr = Exc e n t -> is_request_exception e = false.
Proof.
  induction net as [|r net IH]; intros page acc tr Hn; [intros e n t Hx; discriminate|].
  inversion Hn as [|? ? Hr Hn']; subst. destruct r as [k|status text data]; [contradiction|].
  intros e n t Hx; simpl in Hx.
  destruct (negb (status =? 200)%Z) eqn:Es; [discriminate|].
  destruct data as [[|a data]|]; [discriminate| |].
  - destruct (article_rows (a :: data)) as [e'|rows] eqn:E.
    + injection Hx as <- _ _. eapply article_rows_no_request, E.
    + eapply IH; [exact Hn' | exact Hx].
  - exfalso. apply Hr. apply Z.eqb_eq. destruct (status =? 200)%Z; [reflexivity | discriminate].
Qed.

Lemma load_followers_loop_no_request net : forall page acc tr,
  no_request_failure net ->
  forall e n t, load_followers_loop page acc net tr = Exc e n t -> is_request_exception e = false.
Proof.
  induction net as [|r net IH]; intros page acc tr Hn; [intros e n t Hx; discriminate|].
  inversion Hn as [|? ? Hr Hn']; subst. destruct r as [k|status text data]; [contradiction|].
  intros e n t Hx; simpl in Hx.
  destruct (negb (status =? 200)%Z) eqn:Es; [discriminate|].
  destruct data as [[|a data]|]; [discriminate| |].
  - eapply IH; [exact Hn' | exact Hx].
  - exfalso. apply Hr. apply Z.eqb_eq. destruct (status =? 200)%Z; [reflexivity | discriminate].
Qed.

(** C6 (counterexample): [get_user_stats] answered 500 and then 200 issues
    the request a second time: [raise_for_status] turns the 500 into an
    [HTTPError], a [RequestException], which the decorator retries. *)
Lemma get_user_stats_retries_http_500 :
  get_user_stats (fun _ => Some ([], [], 0%Z, 0%Z)) "ann"
    [Resp 500 "Internal Server Error" (Some tt); Resp 200 "<html></html>" (Some tt)] [] =
  Ok ([], [], 0%Z, 0%Z) []
    [Get "https://dev.to/ann/"; BackingOff 1; Get "https://dev.to/ann/"].
Proof. reflexivity. Qed.

(** C6 (amended): the decorator calls a routine again only when the call
    raised a [RequestException].  The JSON routines raise one from the
    transport layer and, on a 200 response whose body is not JSON, from
    [response.json()] ([JSONDecodeError]); without those, they are called
    exactly once whatever HTTP statuses they receive, and a 200 response
    with a non-JSON body is retried on the following answers.
    [get_user_stats] turns a status in 400..599 into an [HTTPError], which is
    retried like a transport failure. *)
Theorem retry_only_on_request_exceptions :
  (forall u (net : list (Net Dict)) tr, no_request_failure net ->
     get_user_details u net tr = get_user_details_loop u net tr) /\
  (forall u token (net : list (Net Dict)) tr, no_request_failure net ->
     get_github_user u token net tr = get_github_user_loop u net tr) /\
  (forall u (net : list (Net (list Article))) tr, no_request_failure net ->
     get_user_articles_summary u net tr = summary_loop u 1 empty_summary net tr) /\
  (forall (net : list (Net (list Article))) tr, no_request_failure net ->
     load_articles_to_dataframe net tr = load_articles_loop 1 [] net tr) /\
  (forall (net : list (Net (list Dict))) tr, no_request_failure net ->
     load_followers_to_dataframe net tr = load_followers_loop 1 [] net tr) /\
  (forall u text rest tr,
     get_user_details u (Resp 200 text None :: rest) tr =
     backoff_retry 3 2 (get_user_details_loop u) rest
       (tr ++ [Get (BASE_URL ++ "/users/by_username?url=" ++ u); BackingOff 1])) /\
  (forall u token text rest tr,
     get_github_user u token (Resp 200 text None :: rest) tr =
     backoff_retry 3 2 (get_github_user_loop u) rest
       (tr ++ [Get ("https://api.github.com/users/" ++ u); BackingOff 1])) /\
  (forall u text rest tr,
     get_user_articles_summary u (Resp 200 text None :: rest) tr =
     backoff_retry 3 2 (summary_loop u 1 empty_summary) rest
       (tr ++ [Get (BASE_URL ++ "/articles?username=" ++ u ++ "&page=" ++ str_of_nat 1);
               BackingOff 1])) /\
  (forall text rest tr,
     load_articles_to_dataframe (Resp 200 text None :: rest) tr =
     backoff_retry 3 2 (load_articles_loop 1 []) rest
       (tr ++ [Get (BASE_URL ++ "/articles/me?page=" ++ str_of_nat 1); BackingOff 1])) /\
  (forall text rest tr,
     load_followers_to_dataframe (Resp 200 text None :: rest) tr =
     backoff_retry 3 2 (load_followers_loop 1 []) rest
       (tr ++ [Get (BASE_URL ++ "/followers/users?page=" ++ str_of_nat 1
                    ++ "&per_page=1000"); BackingOff 1])) /\
  (forall scrape u status text pl rest tr, (400 <= status < 600)%Z ->
     get_user_stats scrape u (Resp status text pl :: rest) tr =
     backoff_retry 3 2 (get_user_stats_body scrape u) rest
       (tr ++ [Get ("https://dev.to/" ++ u ++ "/"); BackingOff 1])).
Proof.
  split; [|split; [|split; [|split; [|split; [|split; [|split; [|split; [|split;
    [|split]]]]]]]]]; intros.
  - apply backoff_retry_single. apply get_user_details_loop_no_request; assumption.
  - apply backoff_retry_single. apply get_github_user_loop_no_request; assumption.
  - apply backoff_retry_single. apply summary_loop_no_request; assumption.
  - apply backoff_retry_single. apply load_articles_loop_no_request; assumption.
  - apply backoff_retry_single. apply load_followers_loop_no_request; assumption.
  - unfold get_user_details, on_exception. simpl Nat.sub. cbn [backoff_retry].
    unfold get_user_details_loop at 1. cbn [Z.eqb Pos.eqb is_request_exception].
    rewrite <- app_assoc. reflexivity.
  - unfold get_github_user, on_exception. simpl Nat.sub. cbn [backoff_retry].
    unfold get_github_user_loop at 1. cbn [Z.eqb Pos.eqb is_request_exception].
    rewrite <- app_assoc. reflexivity.
  - unfold get_user_articles_summary, on_exception. simpl Nat.sub. cbn [backoff_retry].
    unfold summary_loop at 1. cbn [Z.eqb Pos.eqb is_request_exception].
    rewrite <- app_assoc. reflexivity.
  - unfold load_articles_to_dataframe, on_exception. simpl Nat.sub. cbn [backoff_retry].
    unfold load_articles_loop at 1. cbn [Z.eqb Pos.eqb negb is_request_exception].
    rewrite <- app_assoc. reflexivity.
  - unfold load_followers_to_dataframe, on_exception. simpl Nat.sub. cbn [backoff_retry].
    unfold load_followers_loop at 1. cbn [Z.eqb Pos.eqb negb is_request_exception].
    rewrite <- app_assoc. reflexivity.
  - unfold get_user_stats, on_exception. simpl Nat.sub.
    cbn [backoff_retry]. unfold get_user_stats_body at 1.
    assert (E : ((400 <=? status) && (status <? 600))%Z = true)
      by (apply andb_true_iff; split; [apply Z.leb_le | apply Z.ltb_lt]; lia).
    rewrite E. cbn [is_request_exception]. rewrite <- app_assoc. reflexivity.
Qed.

(** ** Column assignments and the store *)

Lemma col_lookup_cols_set c c' vs cols :
  col_lookup c (cols_set c' vs cols) =
  if String.eqb c c' then Some vs else col_lookup c cols.
Proof.
  induction cols as [|[c0 vs0] cols IH]; simpl.
  - destruct (String.eqb c c'); reflexivity.
  - destruct (String.eqb c' c0) eqn:E1; simpl.
    + apply String.eqb_eq in E1; subst c0. destruct (String.eqb c c'); reflexivity.
    + rewrite IH. destruct (String.eqb c c0) eqn:E2; [|reflexivity].
      apply String.eqb_eq in E2; subst c0.
      destruct (String.eqb c c') eqn:E3; [|reflexivity].
      apply String.eqb_eq in E3; subst c'. rewrite String.eqb_refl in E1; discriminate.
Qed.

Lemma col_lookup_none c cols : ~ In c (map fst cols) -> col_lookup c cols = None.
Proof.
  induction cols as [|[c0 vs0] cols IH]; simpl; intros H; auto.
  destruct (String.eqb c c0) eqn:E.
  - apply String.eqb_eq in E. subst. exfalso. auto.
  - apply IH. auto.
Qed.

Lemma df_setitems_spec assigns : forall df df',
  NoDup (map fst assigns) ->
  df_setitems df assigns = inr df' ->
  df_index df' = df_index df /\
  forall c, df_col df' c = match col_lookup c assigns with
                           | Some vs => Some vs
                           | None => df_col df c
                           end.
Proof.
  induction assigns as [|[c0 vs0] assigns IH]; intros df df' Hnd H; simpl in H.
  - injection H as <-. auto.
  - unfold df_setitem in H. destruct (Nat.eqb _ _); [|discriminate].
    inversion Hnd as [|? ? Hnin Hnd']; subst.
    destruct (IH _ _ Hnd' H) as [Hi Hc]. simpl in Hi. split; [exact Hi|].
    intros c. rewrite Hc. unfold df_col. simpl. rewrite col_lookup_cols_set.
    destruct (String.eqb c c0) eqn:E.
    + apply String.eqb_eq in E; subst c0. rewrite col_lookup_none by exact Hnin. reflexivity.
    + destruct (col_lookup c assigns); reflexivity.
Qed.

Lemma col_lookup_field_columns {X : Type} (fields : list (string * (X -> pyval))) xs c f :
  NoDup (map fst fields) -> In (c, f) fields ->
  col_lookup c (field_columns fields xs) = Some (map f xs).
Proof.
  induction fields as [|[c0 f0] fields IH]; simpl; intros Hnd Hin; [contradiction|].
  inversion Hnd as [|? ? Hnin Hnd']; subst.
  destruct Hin as [Heq|Hin].
  - injection Heq as <- <-. rewrite String.eqb_refl. reflexivity.
  - destruct (String.eqb c c0) eqn:E.
    + apply String.eqb_eq in E; subst c0. exfalso. apply Hnin.
      apply (in_map fst) in Hin. exact Hin.
    + apply IH; assumption.
Qed.

Lemma col_lookup_field_columns_none {X : Type} (fields : list (string * (X -> pyval))) xs c :
  ~ In c (map fst fields) -> col_lookup c (field_columns fields xs) = None.
Proof.
  intros H. apply col_lookup_none. unfold field_columns. rewrite map_map. exact H.
Qed.

Lemma field_columns_names {X : Type} (fields : list (string * (X -> pyval))) xs :
  map fst (field_columns fields xs) = map fst fields.
Proof. unfold field_columns. rewrite map_map. reflexivity. Qed.

Lemma nth_error_store_set_same st l df d :
  nth_error st l = Some d -> nth_error (store_set st l df) l = Some df.
Proof.
  revert l; induction st as [|d0 st IH]; intros [|l] H; simpl in *; try discriminate; auto.
Qed.

Lemma nth_error_store_set_other st l df j :
  j <> l -> nth_error (store_set st l df) j = nth_error st j.
Proof.
  revert l j; induction st as [|d0 st IH]; intros [|l] [|j] H; simpl; try reflexivity.
  - lia.
  - apply IH. lia.
Qed.

Lemma length_store_set st l df : List.length (store_set st l df) = List.length st.
Proof. revert l; induction st; intros [|l]; simpl; auto. Qed.

Lemma summary_fields_NoDup : NoDup (map fst summary_fields).
Proof.
  simpl. repeat constructor; simpl; intros H;
    repeat (destruct H as [H|H]; [discriminate H|]); exact H.
Qed.

Lemma stats_fields_NoDup : NoDup (map fst stats_fields).
Proof.
  simpl. repeat constructor; simpl; intros H;
    repeat (destruct H as [H|H]; [discriminate H|]); exact H.
Qed.

(** ** Row-by-row enrichment with article summaries *)

Lemma articles_per_row_rel us : forall net tr ss net' tr',
  articles_per_row us net tr = Ok ss net' tr' ->
  per_row_summaries us net tr ss net' tr' /\ List.length ss = List.length us.
Proof.
  induction us as [|u us IH]; intros net tr ss net' tr' H; simpl in H.
  - injection H as <- <- <-. split; [constructor | reflexivity].
  - destruct (get_user_articles_summary (py_str u) net tr) as [s n1 t1|e n1 t1|t1] eqn:E;
      try discriminate.
    destruct (articles_per_row us n1 (t1 ++ [summary_print u s])) as [ss' n2 t2|e n2 t2|t2]
      eqn:E2; try discriminate.
    injection H as <- <- <-. destruct (IH _ _ _ _ _ E2) as [Hr Hl].
    split; [econstructor; eauto | simpl; rewrite Hl; reflexivity].
Qed.

Lemma update_followers_with_articles_ok st loc df us net tr st' loc' net' tr' :
  nth_error st loc = Some df -> df_col df "username" = Some us ->
  update_followers_with_articles st loc net tr = Ok (st', loc') net' tr' ->
  exists ss df',
    per_row_summaries us net tr ss net' tr' /\ List.length ss = List.length us /\
    loc' = loc /\ st' = store_set st loc df' /\
    df_setitems df (field_columns summary_fields ss) = inr df'.
Proof.
  intros Hst Hu H. unfold update_followers_with_articles in H. rewrite Hst, Hu in H.
  destruct (articles_per_row us net tr) as [ss n1 t1|e n1 t1|t1] eqn:E; try discriminate.
  destruct (df_setitems df (field_columns summary_fields ss)) as [e|df'] eqn:E2;
    [discriminate|].
  injection H as <- <- <- <-. destruct (articles_per_row_rel _ _ _ _ _ _ E) as [Hr Hl].
  exists ss, df'. auto 6.
Qed.

(** C3: the enrichment calls the summary routine once per row, in row order,
    and each new column holds, at row [i], the field of the [i]-th summary;
    the other columns and the row labels are kept.  In particular, for three
    rows whose summaries count 2, 0 and 5 articles, [article_count] is
    exactly [2; 0; 5] in the input's row order. *)
Theorem update_followers_with_articles_row_aligned :
  (forall st loc df us net tr st' loc' net' tr',
     nth_error st loc = Some df -> df_col df "username" = Some us ->
     update_followers_with_articles st loc net tr = Ok (st', loc') net' tr' ->
     exists ss df',
       per_row_summaries us net tr ss net' tr' /\
       List.length ss = List.length us /\
       nth_error st' loc' = Some df' /\
       df_index df' = df_index df /\
       df_col df' "article_count" = Some (map (fun s => PInt (article_count s)) ss) /\
       (forall c f, In (c, f) summary_fields -> df_col df' c = Some (map f ss)) /\
       (forall c, ~ In c (map fst summary_fields) -> df_col df' c = df_col df c)) /\
  (let art := mkArticle (Some "post") (Some "2024-01-01") (Some 1%Z) (Some 3%Z)
                        (Some 0%Z) (Some 1%Z) (Some ["rocq"]) in
   let df := mkDataFrame [0; 1; 2]%Z [("username", [PStr "ann"; PStr "bob"; PStr "cyd"])] in
   let net := [Resp 200 "" (Some [art; art]); Resp 200 "" (Some []);
               Resp 200 "" (Some []);
               Resp 200 "" (Some [art; art; art]); Resp 200 "" (Some [art; art]); Resp 200 "" (Some [])] in
   exists st' tr' df',
     update_followers_with_articles [df] 0 net [] = Ok (st', 0) [] tr' /\
     nth_error st' 0 = Some df' /\
     df_col df' "article_count" = Some [PInt 2; PInt 0; PInt 5] /\
     df_col df' "username" = Some [PStr "ann"; PStr "bob"; PStr "cyd"]).
Proof.
  split.
  - intros st loc df us net tr st' loc' net' tr' Hst Hu H.
    destruct (update_followers_with_articles_ok _ _ _ _ _ _ _ _ _ _ Hst Hu H)
      as (ss & df' & Hr & Hl & -> & -> & Hs).
    destruct (df_setitems_spec _ _ _ (eq_ind_r (@NoDup string) summary_fields_NoDup
                                        (field_columns_names summary_fields ss)) Hs)
      as [Hi Hc].
    exists ss, df'. split; [exact Hr|]. split; [exact Hl|].
    split; [eapply nth_error_store_set_same; exact Hst|]. split; [exact Hi|].
    assert (Hf : forall c f, In (c, f) summary_fields -> df_col df' c = Some (map f ss)).
    { intros c f Hin. rewrite Hc, (col_lookup_field_columns _ _ _ _ summary_fields_NoDup Hin).
      reflexivity. }
    split; [apply (Hf "article_count" (fun s => PInt (article_count s))); simpl; auto|].
    split; [exact Hf|].
    intros c Hn. rewrite Hc, col_lookup_field_columns_none by exact Hn. reflexivity.
  - intros art df net. do 3 eexists. split; [reflexivity|]. split; [reflexivity|].
    split; reflexivity.
Qed.

(** ** In-place mutation of the caller's table *)

Lemma update_followers_with_stats_ok scrape st loc df net tr st' loc' net' tr' :
  nth_error st loc = Some df ->
  update_followers_with_stats scrape st loc net tr = Ok (st', loc') net' tr' ->
  exists ss df', loc' = loc /\ st' = store_set st loc df' /\
    df_setitems df (field_columns stats_fields ss) = inr df'.
Proof.
  intros Hst H. unfold update_followers_with_stats in H. rewrite Hst in H.
  destruct (df_col df "username") as [us|]; [|discriminate].
  destruct (df_col df "article_titles") as [ts|]; [|discriminate].
  destruct (stats_per_row scrape (combine us ts) net tr) as [ss n1 t1|e n1 t1|t1];
    try discriminate.
  destruct (df_setitems df (field_columns stats_fields ss)) as [e|df'] eqn:E2;
    [discriminate|].
  injection H as <- <- <- <-. exists ss, df'. auto.
Qed.

Lemma set_columns_in_place {X : Type} (fields : list (string * (X -> pyval))) xs
    st loc df df' :
  NoDup (map fst fields) ->
  nth_error st loc = Some df ->
  df_setitems df (field_columns fields xs) = inr df' ->
  List.length (store_set st loc df') = List.length st /\
  (forall j, j <> loc -> nth_error (store_set st loc df') j = nth_error st j) /\
  nth_error (store_set st loc df') loc = Some df' /\
  df_index df' = df_index df /\
  (forall c, ~ In c (map fst fields) -> df_col df' c = df_col df c) /\
  (forall c f, In (c, f) fields -> df_col df' c = Some (map f xs)).
Proof.
  intros Hnd Hst Hs.
  assert (Hnd' : NoDup (map fst (field_columns fields xs)))
    by (rewrite field_columns_names; exact Hnd).
  destruct (df_setitems_spec _ _ _ Hnd' Hs) as [Hi Hc].
  split; [apply length_store_set|]. split; [intros; apply nth_error_store_set_other; auto|].
  split; [eapply nth_error_store_set_same; exact Hst|]. split; [exact Hi|]. split.
  - intros c Hn. rewrite Hc, col_lookup_field_columns_none by exact Hn. reflexivity.
  - intros c f Hin. rewrite Hc, (col_lookup_field_columns _ _ _ _ Hnd Hin). reflexivity.
Qed.

(** C9 (counterexample): after [update_followers_with_articles] the table
    the caller passed in (store location 0) is no longer the one it was:
    the returned reference is that same location, now with the new columns. *)
Lemma update_followers_with_articles_mutates_input :
  let df := mkDataFrame [0%Z] [("username", [PStr "ann"])] in
  exists st' tr',
    update_followers_with_articles [df] 0 [Resp 200 "" (Some [])] [] = Ok (st', 0) [] tr' /\
    nth_error st' 0 <> Some df.
Proof.
  intros df. do 2 eexists. split; [reflexivity|]. simpl. intros H. discriminate H.
Qed.

(** C9 (amended): both enrichment routines mutate the caller's table in
    place: they return the reference they were given, the table stored there
    keeps its rows and its other columns and now holds the new columns, and
    no other table of the store changes. *)
Theorem enrichment_mutates_in_place :
  (forall st loc df net tr st' loc' net' tr',
     nth_error st loc = Some df ->
     update_followers_with_articles st loc net tr = Ok (st', loc') net' tr' ->
     loc' = loc /\ List.length st' = List.length st /\
     (forall j, j <> loc -> nth_error st' j = nth_error st j) /\
     exists df', nth_error st' loc = Some df' /\ df_index df' = df_index df /\
       (forall c, ~ In c (map fst summary_fields) -> df_col df' c = df_col df c) /\
       (forall c, In c (map fst summary_fields) -> df_col df' c <> None)) /\
  (forall scrape st loc df net tr st' loc' net' tr',
     nth_error st loc = Some df ->
     update_followers_with_stats scrape st loc net tr = Ok (st', loc') net' tr' ->
     loc' = loc /\ List.length st' = List.length st /\
     (forall j, j <> loc -> nth_error st' j = nth_error st j) /\
     exists df', nth_error st' loc = Some df' /\ df_index df' = df_index df /\
       (forall c, ~ In c (map fst stats_fields) -> df_col df' c = df_col df c) /\
       (forall c, In c (map fst stats_fields) -> df_col df' c <> None)).
Proof.
  split.
  - intros st loc df net tr st' loc' net' tr' Hst H.
    assert (Hu : exists us, df_col df "username" = Some us).
    { unfold update_followers_with_articles in H. rewrite Hst in H.
      destruct (df_col df "username"); [eauto | discriminate]. }
    destruct Hu as [us Hu].
    destruct (update_followers_with_articles_ok _ _ _ _ _ _ _ _ _ _ Hst Hu H)
      as (ss & df' & _ & _ & -> & -> & Hs).
    destruct (set_columns_in_place _ _ _ _ _ _ summary_fields_NoDup Hst Hs)
      as (H1 & H2 & H3 & H4 & H5 & H6).
    split; [reflexivity|]. split; [exact H1|]. split; [exact H2|].
    exists df'. split; [exact H3|]. split; [exact H4|]. split; [exact H5|].
    intros c Hin. apply in_map_iff in Hin as [[c0 f] [Hc Hin]]. simpl in Hc. subst c0.
    rewrite (H6 _ _ Hin). discriminate.
  - intros scrape st loc df net tr st' loc' net' tr' Hst H.
    destruct (update_followers_with_stats_ok _ _ _ _ _ _ _ _ _ _ Hst H)
      as (ss & df' & -> & -> & Hs).
    destruct (set_columns_in_place _ _ _ _ _ _ stats_fields_NoDup Hst Hs)
      as (H1 & H2 & H3 & H4 & H5 & H6).
    split; [reflexivity|]. split; [exact H1|]. split; [exact H2|].
    exists df'. split; [exact H3|]. split; [exact H4|]. split; [exact H5|].
    intros c Hin. apply in_map_iff in Hin as [[c0 f] [Hc Hin]]. simpl in Hc. subst c0.
    rewrite (H6 _ _ Hin). discriminate.
Qed.

(** ** GitHub enrichment *)

Lemma github_rows_rel token rows : forall df net tr df' net' tr',
  github_rows token df rows net tr = Ok df' net' tr' ->
  exists rs, per_row_github token rows net tr rs net' tr' /\
    List.length rs = List.length rows /\ df' = github_apply df rows rs.
Proof.
  induction rows as [|[label u] rows IH]; intros df net tr df' net' tr' H; simpl in H.
  - injection H as <- <- <-. exists []. split; [constructor|]. auto.
  - destruct (get_github_user (py_str u) token net tr) as [r n1 t1|e n1 t1|t1] eqn:E;
      try discriminate.
    destruct (IH _ _ _ _ _ _ H) as (rs & Hr & Hl & Hd).
    exists (r :: rs). split; [econstructor; eauto|]. split; [simpl; auto|].
    rewrite Hd. reflexivity.
Qed.

Lemma col_lookup_cols_update c c' f cols :
  col_lookup c (cols_update c' f cols) =
  if String.eqb c c' then option_map f (col_lookup c cols) else col_lookup c cols.
Proof.
  induction cols as [|[c0 vs0] cols IH]; simpl.
  - destruct (String.eqb c c'); reflexivity.
  - destruct (String.eqb c' c0) eqn:E1; simpl.
    + apply String.eqb_eq in E1; subst c0.
      destruct (String.eqb c c') eqn:E; reflexivity.
    + rewrite IH. destruct (String.eqb c c0) eqn:E2; [|reflexivity].
      apply String.eqb_eq in E2; subst c0.
      destruct (String.eqb c c') eqn:E3; [|reflexivity].
      apply String.eqb_eq in E3; subst c'. rewrite String.eqb_refl in E1; discriminate.
Qed.

Lemma df_col_at_set df label c' v c :
  df_col (df_at_set df label c' v) c =
  if String.eqb c c' then option_map (set_where (df_index df) label v) (df_col df c)
  else df_col df c.
Proof. unfold df_col, df_at_set. simpl. apply col_lookup_cols_update. Qed.

Lemma nth_error_set_where idx : forall label v vs i,
  nth_error (set_where idx label v vs) i =
  match nth_error idx i, nth_error vs i with
  | Some l, Some x => Some (if (l =? label)%Z then v else x)
  | _, o => o
  end.
Proof.
  induction idx as [|l idx IH]; intros label v [|x vs] [|i]; simpl; auto.
  - destruct (nth_error idx i); reflexivity.
Qed.

Lemma github_write_index df label r : df_index (github_write df label r) = df_index df.
Proof.
  unfold github_write. destruct r as [d|]; [|reflexivity].
  destruct (dict_truthy d); reflexivity.
Qed.

Lemma cell_at_set_other df label c' v c i L :
  nth_error (df_index df) i = Some L -> L <> label ->
  cell (df_at_set df label c' v) c i = cell df c i.
Proof.
  intros Hi Hne. unfold cell. rewrite df_col_at_set.
  destruct (String.eqb c c'); [|reflexivity].
  destruct (df_col df c) as [vs|]; simpl; [|reflexivity].
  rewrite nth_error_set_where, Hi. destruct (nth_error vs i); [|reflexivity].
  apply Z.eqb_neq in Hne. rewrite Hne. reflexivity.
Qed.

Lemma at_set_fold_index (fs : list (string * string)) d label : forall df,
  df_index (fold_left (fun acc f => df_at_set acc label (fst f) (dict_get d (snd f))) fs df)
  = df_index df.
Proof. induction fs as [|f fs IH]; intros df; simpl; [reflexivity|]. rewrite IH. reflexivity. Qed.

Lemma at_set_fold_cell_other (fs : list (string * string)) d label c i L : forall df,
  nth_error (df_index df) i = Some L -> L <> label ->
  cell (fold_left (fun acc f => df_at_set acc label (fst f) (dict_get d (snd f))) fs df) c i
  = cell df c i.
Proof.
  induction fs as [|f fs IH]; intros df Hi Hne; simpl; [reflexivity|].
  rewrite IH; [apply (cell_at_set_other _ _ _ _ _ _ L); assumption | exact Hi | exact Hne].
Qed.

Lemma at_set_fold_col_other (fs : list (string * string)) d label c : forall df,
  ~ In c (map fst fs) ->
  df_col (fold_left (fun acc f => df_at_set acc label (fst f) (dict_get d (snd f))) fs df) c
  = df_col df c.
Proof.
  induction fs as [|f fs IH]; intros df Hn; simpl in *; [reflexivity|].
  rewrite IH by tauto. rewrite df_col_at_set.
  destruct (String.eqb c (fst f)) eqn:E; [|reflexivity].
  apply String.eqb_eq in E. exfalso. auto.
Qed.

Lemma github_apply_index rows : forall rs df, df_index (github_apply df rows rs) = df_index df.
Proof.
  induction rows as [|[l u] rows IH]; intros [|r rs] df; simpl; auto.
  rewrite IH, github_write_index. reflexivity.
Qed.

Lemma github_apply_col_other rows : forall rs df c,
  ~ In c (map fst github_fields) -> df_col (github_apply df rows rs) c = df_col df c.
Proof.
  induction rows as [|[l u] rows IH]; intros [|r rs] df c Hn; simpl; auto.
  rewrite IH by exact Hn. unfold github_write.
  destruct r as [d|]; [|reflexivity]. destruct (dict_truthy d); [|reflexivity].
  apply at_set_fold_col_other. exact Hn.
Qed.

(** A cell is only written by a successful lookup of a row with its label. *)
Lemma github_apply_cell rows : forall rs df c i L,
  nth_error (df_index df) i = Some L ->
  (forall l u r, In ((l, u), r) (combine rows rs) -> l = L -> lookup_failed r = true) ->
  cell (github_apply df rows rs) c i = cell df c i.
Proof.
  induction rows as [|[l u] rows IH]; intros [|r rs] df c i L Hi Hf; simpl; auto.
  rewrite (IH rs _ c i L).
  - unfold github_write. destruct (Z.eq_dec l L) as [->|Hne].
    + specialize (Hf L u r (or_introl eq_refl) eq_refl).
      destruct r as [d|]; simpl in Hf; [|reflexivity].
      destruct (dict_truthy d); [discriminate|reflexivity].
    + destruct r as [d|]; [|reflexivity]. destruct (dict_truthy d); [|reflexivity].
      apply (at_set_fold_cell_other _ _ _ _ _ L); [exact Hi | congruence].
  - rewrite github_write_index. exact Hi.
  - intros l' u' r' Hin. apply (Hf l' u' r'). right. exact Hin.
Qed.

Lemma in_combine_nth {X Y : Type} (xs : list X) (ys : list Y) x y :
  In (x, y) (combine xs ys) ->
  exists k, nth_error xs k = Some x /\ nth_error ys k = Some y.
Proof.
  revert ys; induction xs as [|x0 xs IH]; intros [|y0 ys] H; simpl in H; try contradiction.
  destruct H as [H|H].
  - injection H as <- <-. exists 0. auto.
  - destruct (IH ys H) as [k Hk]. exists (S k). exact Hk.
Qed.

Lemma nth_error_combine_fst {X Y : Type} (xs : list X) (ys : list Y) k x y :
  nth_error (combine xs ys) k = Some (x, y) -> nth_error xs k = Some x.
Proof.
  revert ys k; induction xs as [|x0 xs IH]; intros [|y0 ys] [|k] H; simpl in *;
    try discriminate.
  - injection H as <- _. reflexivity.
  - eapply IH; exact H.
Qed.

Lemma filter_by_NoDup {X : Type} (mask : list bool) : forall (xs : list X),
  NoDup xs -> NoDup (filter_by mask xs).
Proof.
  induction mask as [|b mask IH]; intros [|x xs] H; simpl; try constructor.
  inversion H as [|? ? Hn Hd]; subst. destruct b.
  - constructor; [|auto]. intros Hin. apply Hn.
    clear -Hin. revert xs Hin. induction mask as [|b' mask IHm]; intros [|y ys] Hin;
      simpl in *; try contradiction.
    destruct b'; [destruct Hin as [->|Hin]; [left; reflexivity|right]|right]; eauto.
  - auto.
Qed.

Lemma df_col_setitem_scalar df c' v c :
  df_col (df_setitem_scalar df c' v) c =
  if String.eqb c c' then Some (repeat v (List.length (df_index df))) else df_col df c.
Proof. unfold df_col, df_setitem_scalar. simpl. apply col_lookup_cols_set. Qed.

Lemma setitem_scalar_fold_index (fs : list (string * string)) : forall df,
  df_index (fold_left (fun acc f => df_setitem_scalar acc (fst f) PNone) fs df) = df_index df.
Proof. induction fs as [|f fs IH]; intros df; simpl; [reflexivity|]. rewrite IH. reflexivity. Qed.

Lemma setitem_scalar_fold_col (fs : list (string * string)) c : forall df,
  df_col (fold_left (fun acc f => df_setitem_scalar acc (fst f) PNone) fs df) c =
  if existsb (String.eqb c) (map fst fs)
  then Some (repeat PNone (List.length (df_index df))) else df_col df c.
Proof.
  induction fs as [|f fs IH]; intros df; simpl; [reflexivity|].
  rewrite IH. unfold df_setitem_scalar at 1. simpl.
  destruct (existsb (String.eqb c) (map fst fs)).
  - rewrite orb_true_r. reflexivity.
  - rewrite orb_false_r. apply df_col_setitem_scalar.
Qed.

Lemma df_filter_col df mask c :
  df_col (df_filter df mask) c = option_map (filter_by mask) (df_col df c).
Proof.
  unfold df_col, df_filter. simpl. induction (df_columns df) as [|[c0 vs] cols IH];
    simpl; [reflexivity|].
  destruct (String.eqb c c0); [reflexivity | exact IH].
Qed.

Lemma github_apply_col_some rows : forall rs df c,
  df_col df c <> None -> df_col (github_apply df rows rs) c <> None.
Proof.
  induction rows as [|[l u] rows IH]; intros [|r rs] df c Hc; simpl; auto.
  apply IH. unfold github_write. destruct r as [d|]; [|exact Hc].
  destruct (dict_truthy d); [|exact Hc].
  clear -Hc. revert df Hc. induction github_fields as [|f fs IHf]; intros df Hc; simpl;
    [exact Hc|].
  apply IHf. rewrite df_col_at_set. destruct (String.eqb c (fst f)); [|exact Hc].
  destruct (df_col df c); [discriminate | contradiction].
Qed.

Lemma update_with_github_ok token st loc df filt net tr st' loc' net' tr' :
  nth_error st loc = Some df ->
  update_with_github token st loc filt net tr = Ok (st', loc') net' tr' ->
  exists mask rs,
    github_mask df filt = inr mask /\
    per_row_github token (github_base_rows (github_base df mask)) net tr rs net' tr' /\
    List.length rs = List.length (github_base_rows (github_base df mask)) /\
    st' = st ++ [github_apply (github_base df mask)
                              (github_base_rows (github_base df mask)) rs] /\
    loc' = List.length st.
Proof.
  intros Hst H. unfold update_with_github in H. rewrite Hst in H.
  destruct (github_mask df filt) as [e|mask] eqn:Em; [discriminate|].
  fold (github_base df mask) in H.
  destruct (github_rows token (github_base df mask) _ net tr) as [gu' n1 t1|e n1 t1|t1]
    eqn:E; try discriminate.
  injection H as <- <- <- <-.
  destruct (github_rows_rel _ _ _ _ _ _ _ _ E) as (rs & Hr & Hl & Hd).
  exists mask, rs. subst gu'. auto.
Qed.

Lemma github_base_rows_spec df filt mask :
  github_mask df filt = inr mask ->
  exists ghs,
    df_col df "github_username" = Some ghs /\
    df_index (github_base df mask) = filter_by mask (df_index df) /\
    github_base_rows (github_base df mask) =
      combine (filter_by mask (df_index df)) (filter_by mask ghs).
Proof.
  intros Hm.
  assert (Hg : exists ghs, df_col df "github_username" = Some ghs).
  { unfold github_mask in Hm. destruct filt.
    - destruct (df_col df "category"); [|discriminate].
      destruct (df_col df "github_username"); [eauto | discriminate].
    - destruct (df_col df "github_username"); [eauto | discriminate]. }
  destruct Hg as [ghs Hg]. exists ghs. split; [exact Hg|].
  assert (Hi : df_index (github_base df mask) = filter_by mask (df_index df))
    by (unfold github_base; rewrite setitem_scalar_fold_index; reflexivity).
  split; [exact Hi|].
  unfold github_base_rows. rewrite Hi. unfold github_base. rewrite setitem_scalar_fold_col.
  change (existsb (String.eqb "github_username") (map fst github_fields)) with false.
  cbv iota. rewrite df_filter_col, Hg. reflexivity.
Qed.

(** C4 (counterexample): a "Connected Profiles" row whose GitHub handle is
    the empty string passes the filter ([notna] only rejects missing
    values) and is in the returned table. *)
Lemma update_with_github_keeps_empty_handle :
  let df := mkDataFrame [0%Z]
              [("username", [PStr "ann"]); ("category", [PStr "Connected Profiles"]);
               ("github_username", [PStr ""])] in
  exists st' tr' gu,
    update_with_github None [df] 0 true [Resp 404 "Not Found" (Some [])] [] = Ok (st', 1) [] tr' /\
    nth_error st' 1 = Some gu /\
    df_col gu "github_username" = Some [PStr ""].
Proof. intros df. do 3 eexists. split; [reflexivity|]. split; reflexivity. Qed.

(** C4 (amended): with [filter_connected_profiles = true] the routine
    returns a new table (the store is only extended) whose rows are exactly
    the input rows whose category is "Connected Profiles" and whose GitHub
    handle is not missing (an empty handle counts as present), in input
    order with their labels and cells, plus the three GitHub columns; every
    other row is absent from it. *)
Theorem update_with_github_filters_connected_rows :
  forall token st loc df cats ghs net tr st' loc' net' tr',
    nth_error st loc = Some df ->
    df_col df "category" = Some cats ->
    df_col df "github_username" = Some ghs ->
    update_with_github token st loc true net tr = Ok (st', loc') net' tr' ->
    let mask := map (fun p => is_connected (fst p) && notna (snd p)) (combine cats ghs) in
    loc' = List.length st /\
    exists gu,
      st' = st ++ [gu] /\
      nth_error st' loc' = Some gu /\
      df_index gu = filter_by mask (df_index df) /\
      (forall c, ~ In c (map fst github_fields) ->
                 df_col gu c = option_map (filter_by mask) (df_col df c)) /\
      (forall c, In c (map fst github_fields) -> df_col gu c <> None).
Proof.
  intros token st loc df cats ghs net tr st' loc' net' tr' Hst Hc Hg H mask.
  destruct (update_with_github_ok _ _ _ _ _ _ _ _ _ _ _ Hst H)
    as (mask' & rs & Hm & _ & _ & -> & ->).
  simpl in Hm. rewrite Hc, Hg in Hm. injection Hm as <-. fold mask.
  split; [reflexivity|].
  eexists. split; [reflexivity|].
  split; [rewrite nth_error_app2, Nat.sub_diag by lia; reflexivity|].
  split; [|split].
  - rewrite github_apply_index. unfold github_base.
    rewrite setitem_scalar_fold_index. reflexivity.
  - intros c Hn. rewrite github_apply_col_other by exact Hn. unfold github_base.
    rewrite setitem_scalar_fold_col.
    destruct (existsb (String.eqb c) (map fst github_fields)) eqn:E.
    + apply existsb_exists in E as [c' [Hin Hcc]]. apply String.eqb_eq in Hcc; subst c'.
      contradiction.
    + apply df_filter_col.
  - intros c Hin. apply github_apply_col_some. unfold github_base.
    rewrite setitem_scalar_fold_col.
    assert (E : existsb (String.eqb c) (map fst github_fields) = true)
      by (apply existsb_exists; exists c; split; [exact Hin | apply String.eqb_refl]).
    rewrite E. discriminate.
Qed.

(** C10 (failing input): with a repeated row label, a row whose lookup
    failed (404) is still in the result but does not keep null GitHub
    columns: the later successful lookup of the other row with the same
    label writes through [.at] into both rows, against the per-follower
    update the docstring describes. *)
Lemma update_with_github_repeated_label :
  let df := mkDataFrame [7%Z; 7%Z]
              [("username", [PStr "ann"; PStr "bob"]);
               ("category", [PStr "Connected Profiles"; PStr "Connected Profiles"]);
               ("github_username", [PStr "ann-gh"; PStr "bob-gh"])] in
  let d := [("created_at", PStr "2020-01-01"); ("updated_at", PStr "2024-01-01");
            ("public_repos", PInt 3)] in
  exists st' tr' gu,
    update_with_github None [df] 0 true [Resp 404 "Not Found" (Some []); Resp 200 "" (Some d)] [] =
      Ok (st', 1) [] tr' /\
    nth_error st' 1 = Some gu /\
    df_index gu = [7%Z; 7%Z] /\
    cell gu "github_created_at" 0 = Some (PStr "2020-01-01").
Proof. intros df d. do 3 eexists. split; [reflexivity|]. repeat split; reflexivity. Qed.

(** C10: when the input table's row labels are unique (such as the default
    [RangeIndex]), the lookups are made, in order, for the rows that pass
    the filter, the [i]-th one with the label and the [github_username]
    cell of the [i]-th kept row; each kept row is in the result at that
    position, and if its lookup gave no data (user not found, any other
    status, or an empty payload) its [github_created_at],
    [github_updated_at] and [github_public_repos] cells are null. *)
Theorem update_with_github_failed_lookup_keeps_null_row :
  forall token st loc df filt net tr st' loc' net' tr',
    nth_error st loc = Some df ->
    NoDup (df_index df) ->
    update_with_github token st loc filt net tr = Ok (st', loc') net' tr' ->
    exists gu mask ghs rows rs,
      nth_error st' loc' = Some gu /\
      github_mask df filt = inr mask /\
      df_col df "github_username" = Some ghs /\
      df_index gu = filter_by mask (df_index df) /\
      rows = combine (filter_by mask (df_index df)) (filter_by mask ghs) /\
      per_row_github token rows net tr rs net' tr' /\
      List.length rs = List.length rows /\
      forall i r, nth_error rs i = Some r -> lookup_failed r = true ->
        exists label u,
          nth_error rows i = Some (label, u) /\
          nth_error (df_index gu) i = Some label /\
          forall c, In c (map fst github_fields) -> cell gu c i = Some PNone.
Proof.
  intros token st loc df filt net tr st' loc' net' tr' Hst Hnd H.
  destruct (update_with_github_ok _ _ _ _ _ _ _ _ _ _ _ Hst H)
    as (mask & rs & Hm & Hr & Hl & -> & ->).
  set (gu0 := github_base df mask) in *.
  set (rows := github_base_rows gu0) in *.
  assert (Hidx : df_index gu0 = filter_by mask (df_index df))
    by (unfold gu0, github_base; rewrite setitem_scalar_fold_index; reflexivity).
  assert (Hnd0 : NoDup (df_index gu0)) by (rewrite Hidx; apply filter_by_NoDup; exact Hnd).
  destruct (github_base_rows_spec df filt mask Hm) as (ghs & Hg & Hi & Hrows).
  exists (github_apply gu0 rows rs), mask, ghs, rows, rs.
  split; [rewrite nth_error_app2, Nat.sub_diag by lia; reflexivity|].
  split; [exact Hm|]. split; [exact Hg|].
  split; [rewrite github_apply_index; exact Hi|]. split; [exact Hrows|].
  split; [exact Hr|]. split; [exact Hl|].
  intros i r Hri Hfail.
  assert (Hlt : i < List.length rows)
    by (rewrite <- Hl; apply nth_error_Some; congruence).
  destruct (nth_error rows i) as [[label u]|] eqn:Hrow;
    [|apply nth_error_Some in Hlt; contradiction].
  assert (Hli : nth_error (df_index gu0) i = Some label)
    by (eapply nth_error_combine_fst; exact Hrow).
  exists label, u. split; [reflexivity|].
  split; [rewrite github_apply_index; exact Hli|].
  intros c Hin.
  rewrite (github_apply_cell rows rs gu0 c i label Hli).
  - unfold cell, gu0, github_base. rewrite setitem_scalar_fold_col.
    assert (E : existsb (String.eqb c) (map fst github_fields) = true)
      by (apply existsb_exists; exists c; split; [exact Hin | apply String.eqb_refl]).
    rewrite E. apply nth_error_repeat.
    assert (Hf0 : df_index (df_filter df mask) = df_index gu0)
      by (unfold gu0, github_base; rewrite setitem_scalar_fold_index; reflexivity).
    rewrite Hf0. apply nth_error_Some. congruence.
  - intros l u' r' Hin' ->.
    destruct (in_combine_nth _ _ _ _ Hin') as [k [Hk1 Hk2]].
    assert (Hlk : nth_error (df_index gu0) k = Some label)
      by (eapply nth_error_combine_fst; exact Hk1).
    assert (k = i) as ->.
    { apply (proj1 (NoDup_nth_error _) Hnd0).
      - apply nth_error_Some. congruence.
      - congruence. }
    congruence.
Qed.

(** * Witnesses: the hypotheses of the theorems hold on concrete inputs *)

Lemma get_user_articles_summary_parallel_lists_witness :
  let art := mkArticle (Some "post") (Some "2024-01-01") (Some 1%Z) (Some 3%Z)
                       (Some 0%Z) (Some 1%Z) (Some ["rocq"; "coq"]) in
  exists arts : list Article,
    List.length arts = 2 /\
    article_titles (summary_result
      (fst (summary_articles empty_summary [art; art] []))) = map title arts.
Proof.
  intros art.
  destruct (get_user_articles_summary_parallel_lists "ann"
              [Resp 429 "" (Some []); Resp 200 "" (Some [art; art]); Resp 200 "" (Some [])] [] _ _ _ eq_refl)
    as (arts & Hc & Ht & _).
  exists arts. simpl in Hc. split; [lia|]. exact Ht.
Defined.

Lemma paginated_collectors_concatenate_witness :
  let art := mkArticle (Some "post") (Some "2024-01-01") (Some 1%Z) None None None None in
  let fol := [("username", PStr "ann")] in
  (exists df tr',
     load_articles_to_dataframe (ok_pages [("p", [art; art])] ++ Resp 200 "" (Some []) :: []) []
       = Ok df [] tr' /\ List.length (df_index df) = 2) /\
  (exists df tr',
     load_followers_to_dataframe (ok_pages [("p", [fol]); ("q", [fol; fol])]
                                  ++ Resp 200 "" (Some []) :: []) []
       = Ok df [] tr' /\ List.length (df_index df) = 3).
Proof.
  intros art fol. split.
  - destruct (proj1 paginated_collectors_concatenate [("p", [art; art])] "" [] []
                ltac:(repeat constructor; discriminate)) as (df & tr' & E & _ & L).
    exists df, tr'. split; [exact E | exact L].
  - destruct (proj2 paginated_collectors_concatenate [("p", [fol]); ("q", [fol; fol])] "" [] []
                ltac:(repeat constructor; discriminate)) as (df & tr' & E & _ & L).
    exists df, tr'. split; [exact E | exact L].
Defined.

Lemma update_followers_with_articles_row_aligned_witness :
  let art := mkArticle (Some "post") (Some "2024-01-01") (Some 1%Z) (Some 3%Z)
                       (Some 0%Z) (Some 1%Z) (Some ["rocq"]) in
  let df := mkDataFrame [0; 1]%Z [("username", [PStr "ann"; PStr "bob"])] in
  exists ss df',
    List.length ss = 2 /\
    df_col df' "article_count" = Some (map (fun s => PInt (article_count s)) ss) /\
    df_col df' "username" = Some [PStr "ann"; PStr "bob"].
Proof.
  intros art df.
  destruct (proj1 update_followers_with_articles_row_aligned [df] 0 df
              [PStr "ann"; PStr "bob"]
              [Resp 200 "" (Some [art]); Resp 200 "" (Some []); Resp 200 "" (Some [])] [] _ _ _ _
              eq_refl eq_refl eq_refl)
    as (ss & df' & _ & L & _ & _ & C & _ & O).
  exists ss, df'. split; [exact L|]. split; [exact C|].
  rewrite O; [reflexivity|]. vm_compute. intuition discriminate.
Defined.

Lemma update_with_github_filters_connected_rows_witness :
  let df := mkDataFrame [0; 1]%Z
              [("username", [PStr "ann"; PStr "bob"]);
               ("category", [PStr "Connected Profiles"; PStr "Other"]);
               ("github_username", [PStr "ann-gh"; PStr "bob-gh"])] in
  exists gu,
    df_index gu = [0%Z] /\ df_col gu "username" = Some [PStr "ann"].
Proof.
  intros df.
  destruct (update_with_github_filters_connected_rows None [df] 0 df
              [PStr "Connected Profiles"; PStr "Other"] [PStr "ann-gh"; PStr "bob-gh"]
              [Resp 404 "Not Found" (Some [])] [] _ _ _ _ eq_refl eq_refl eq_refl eq_refl)
    as (_ & gu & _ & _ & I & O & _).
  exists gu. split; [exact I|].
  rewrite O; [reflexivity|]. vm_compute. intuition discriminate.
Defined.

Lemma retry_only_on_request_exceptions_witness :
  let art := mkArticle (Some "post") (Some "2024-01-01") (Some 1%Z) None None None None in
  get_user_details "ann" [Resp 500 "<html>boom</html>" None] [] =
    get_user_details_loop "ann" [Resp 500 "<html>boom</html>" None] [] /\
  get_github_user "ann" None [Resp 403 "" (Some [])] [] =
    get_github_user_loop "ann" [Resp 403 "" (Some [])] [] /\
  get_user_articles_summary "ann" [Resp 200 "" (Some [art]); Resp 503 "" None] [] =
    summary_loop "ann" 1 empty_summary [Resp 200 "" (Some [art]); Resp 503 "" None] [] /\
  load_articles_to_dataframe [Resp 500 "" (Some [])] [] =
    load_articles_loop 1 [] [Resp 500 "" (Some [])] [] /\
  load_followers_to_dataframe [Resp 500 "" None] [] =
    load_followers_loop 1 [] [Resp 500 "" None] [] /\
  get_user_details "ann" [Resp 200 "<html></html>" None; Resp 200 "" (Some [])] [] =
    backoff_retry 3 2 (get_user_details_loop "ann") [Resp 200 "" (Some [])]
      ([] ++ [Get (BASE_URL ++ "/users/by_username?url=" ++ "ann"); BackingOff 1]) /\
  get_user_stats (fun _ => None) "ann" [Resp 500 "" None] [] =
    backoff_retry 3 2 (get_user_stats_body (fun _ => None) "ann") []
      ([] ++ [Get ("https://dev.to/" ++ "ann" ++ "/"); BackingOff 1]).
Proof.
  intros art.
  destruct retry_only_on_request_exceptions as (H1 & H2 & H3 & H4 & H5 & H6 & _ & _ & _ & _ & H11).
  split; [apply H1; vm_compute; repeat (constructor || discriminate)|].
  split; [apply H2; vm_compute; repeat (constructor || discriminate)|].
  split; [apply H3; vm_compute; repeat (constructor || discriminate)|].
  split; [apply H4; vm_compute; repeat (constructor || discriminate)|].
  split; [apply H5; vm_compute; repeat (constructor || discriminate)|].
  split; [apply H6|].
  apply H11. lia.
Defined.

Lemma paginated_collectors_partial_on_error_witness :
  let art := mkArticle (Some "post") (Some "2024-01-01") (Some 1%Z) None None None None in
  (exists df tr',
     load_articles_to_dataframe (ok_pages [("p", [art])] ++ Resp 500 "boom" (Some []) :: []) []
       = Ok df [] tr' /\ List.length (df_index df) = 1) /\
  (exists df tr',
     load_followers_to_dataframe (ok_pages [("p", [[("username", PStr "ann")]])]
                                  ++ Resp 500 "boom" (Some []) :: []) []
       = Ok df [] tr' /\ List.length (df_index df) = 1).
Proof.
  intros art. split.
  - rewrite (proj1 paginated_collectors_partial_on_error [("p", [art])] 500%Z "boom" (Some []) [] []
               ltac:(repeat constructor; discriminate) ltac:(lia)).
    do 2 eexists. split; reflexivity.
  - do 2 eexists. split;
      [exact (proj2 paginated_collectors_partial_on_error [("p", [[("username", PStr "ann")]])]
                500%Z "boom" (Some []) [] [] ltac:(repeat constructor; discriminate) ltac:(lia))|].
    reflexivity.
Defined.

Lemma enrichment_mutates_in_place_witness :
  let df := mkDataFrame [0%Z] [("username", [PStr "ann"])] in
  let df2 := mkDataFrame [0%Z] [("username", [PStr "ann"]);
                                ("article_titles", [PList []])] in
  let other := mkDataFrame [5%Z] [("x", [PInt 1])] in
  let scrape := fun _ : string => Some ([] : list string, [] : list string, 0%Z, 0%Z) in
  let st1 := match update_followers_with_articles [other; df] 1 [Resp 200 "" (Some [])] [] with
             | Ok (st', _) _ _ => st' | _ => [] end in
  let st2 := match update_followers_with_stats scrape [other; df2] 1 [Resp 200 "" (Some tt)] [] with
             | Ok (st', _) _ _ => st' | _ => [] end in
  (nth_error st1 0 = Some other /\
   exists df', nth_error st1 1 = Some df' /\ df_index df' = df_index df) /\
  (nth_error st2 0 = Some other /\
   exists df', nth_error st2 1 = Some df' /\ df_index df' = df_index df2).
Proof.
  intros df df2 other scrape st1 st2. split.
  - destruct (proj1 enrichment_mutates_in_place [other; df] 1 df [Resp 200 "" (Some [])] [] _ _ _ _
                eq_refl eq_refl) as (_ & _ & J & df' & G & I & _).
    split; [exact (J 0 ltac:(lia)) | exists df'; split; [exact G | exact I]].
  - destruct (proj2 enrichment_mutates_in_place scrape
                [other; df2] 1 df2 [Resp 200 "" (Some tt)] [] _ _ _ _
                eq_refl eq_refl) as (_ & _ & J & df' & G & I & _).
    split; [exact (J 0 ltac:(lia)) | exists df'; split; [exact G | exact I]].
Defined.

Lemma update_with_github_failed_lookup_keeps_null_row_witness :
  let df := mkDataFrame [0; 1]%Z
              [("username", [PStr "ann"; PStr "bob"]);
               ("category", [PStr "Connected Profiles"; PStr "Connected Profiles"]);
               ("github_username", [PStr "ann-gh"; PStr "bob-gh"])] in
  let d := [("created_at", PStr "2020-01-01"); ("updated_at", PStr "2024-01-01");
            ("public_repos", PInt 3)] in
  let net := [Resp 404 "Not Found" (Some []); Resp 200 "" (Some d)] in
  exists gu (rows : list (Z * pyval)) (rs : list (option Dict)),
    nth_error (match update_with_github None [df] 0 true net [] with
               | Ok (st', _) _ _ => st' | _ => [] end) 1 = Some gu /\
    List.length rs = List.length rows.
Proof.
  intros df d net.
  destruct (update_with_github_failed_lookup_keeps_null_row None [df] 0 df true net [] _ _ _ _
              eq_refl ltac:(repeat constructor; vm_compute; intuition discriminate) eq_refl)
    as (gu & mask & ghs & rows & rs & G & _ & _ & _ & _ & _ & L & _).
  exists gu, rows, rs. split; [exact G | exact L].
Defined.

(** * Further properties of the code *)

(** ** What [get_user_details] returns *)

Lemma get_user_details_loop_shape u net : forall tr r net' tr',
  get_user_details_loop u net tr = Ok r net' tr' ->
  r = [] \/ exists data, r = normalize_user_details data.
Proof.
  induction net as [|[k|status text data] net IH]; intros tr r net' tr' H; simpl in H;
    try discriminate.
  destruct (status =? 200)%Z.
  - destruct data as [data|]; [|discriminate]. injection H as <- _ _. right. eauto.
  - destruct (status =? 429)%Z.
    + eapply IH. exact H.
    + injection H as <- _ _. left. reflexivity.
Qed.

Lemma get_user_details_loop_result u net : forall tr r net' tr',
  get_user_details_loop u net tr = Ok r net' tr' ->
  r = [] \/
  exists pre text data,
    net = pre ++ Resp 200 text (Some data) :: net' /\ r = normalize_user_details data.
Proof.
  induction net as [|[k|status text data] net IH]; intros tr r net' tr' H; simpl in H;
    try discriminate.
  destruct (status =? 200)%Z eqn:Es.
  - destruct data as [data|]; [|discriminate]. injection H as <- <- _.
    apply Z.eqb_eq in Es; subst status. right. exists [], text, data. auto.
  - destruct (status =? 429)%Z.
    + destruct (IH _ _ _ _ H) as [->|(pre & t & d & -> & ->)]; [left; reflexivity|].
      right. exists (Resp status text data :: pre), t, d. auto.
    + injection H as <- _ _. left. reflexivity.
Qed.

Lemma get_user_details_loop_exc_suffix u net : forall tr e n t,
  get_user_details_loop u net tr = Exc e n t -> exists pre, net = pre ++ n.
Proof.
  induction net as [|[k|status text data] net IH]; intros tr e n t H; simpl in H;
    try discriminate.
  - injection H as _ <- _. exists [Transport k]. reflexivity.
  - destruct (status =? 200)%Z.
    + destruct data as [data|]; [discriminate|]. injection H as _ <- _.
      exists [Resp status text None]. reflexivity.
    + destruct (status =? 429)%Z; [|discriminate].
      destruct (IH _ _ _ _ H) as [pre ->]. exists (Resp status text data :: pre). reflexivity.
Qed.

Lemma backoff_retry_ok_suffix {B A : Type} (T : list (Net B) -> list event -> Res B A) :
  (forall net tr e n t, T net tr = Exc e n t -> exists pre, net = pre ++ n) ->
  forall left tries net tr a net' tr',
    backoff_retry left tries T net tr = Ok a net' tr' ->
    exists pre net0 tr0, net = pre ++ net0 /\ T net0 tr0 = Ok a net' tr'.
Proof.
  intros HT. induction left as [|left IH]; intros tries net tr a net' tr' H; simpl in H;
    destruct (T net tr) as [a0 n0 t0|e n0 t0|t0] eqn:E; try discriminate.
  - injection H as <- <- <-. exists [], net, tr. auto.
  - destruct (is_request_exception e); discriminate.
  - injection H as <- <- <-. exists [], net, tr. auto.
  - destruct (is_request_exception e); [|discriminate].
    destruct (IH _ _ _ _ _ _ H) as (pre & net0 & tr0 & -> & H0).
    destruct (HT _ _ _ _ _ E) as [pre0 ->].
    exists (pre0 ++ pre), net0, tr0. split; [apply app_assoc | exact H0].
Qed.

Lemma get_user_details_shape u net tr r net' tr' :
  get_user_details u net tr = Ok r net' tr' ->
  r = [] \/ exists data, r = normalize_user_details data.
Proof.
  intros H. destruct (backoff_retry_ok _ _ _ _ _ _ _ _ H) as (net0 & tr0 & H0).
  eapply get_user_details_loop_shape. exact H0.
Qed.

Lemma normalize_user_details_keys data :
  map fst (normalize_user_details data) =
  ["name"; "twitter_username"; "github_username"; "summary"; "location";
   "website_url"; "joined_at"; "profile_image"].
Proof. reflexivity. Qed.

Lemma normalize_user_details_NoDup data : NoDup (map fst (normalize_user_details data)).
Proof.
  rewrite normalize_user_details_keys.
  repeat constructor; simpl; intros H; repeat (destruct H as [H|H]; [discriminate H|]);
    exact H.
Qed.

(** X1: every dictionary [get_user_details] returns is either empty (the
    lookup failed with a status other than 200 and 429) or has exactly the
    eight keys [name], [twitter_username], [github_username], [summary],
    [location], [website_url], [joined_at], [profile_image], in this order,
    each holding the value, or [None], of that key in the JSON payload of
    the 200 response that ended the call: the last answer it consumed. *)
Theorem get_user_details_result_keys :
  forall u net tr r net' tr',
    get_user_details u net tr = Ok r net' tr' ->
    r = [] \/
    exists pre text data,
      net = pre ++ Resp 200 text (Some data) :: net' /\
      map fst r = ["name"; "twitter_username"; "github_username"; "summary"; "location";
                   "website_url"; "joined_at"; "profile_image"] /\
      forall k, In k (map fst r) -> dict_lookup k r = Some (dict_get data k).
Proof.
  intros u net tr r net' tr' H.
  destruct (backoff_retry_ok_suffix _ (get_user_details_loop_exc_suffix u) _ _ _ _ _ _ _ H)
    as (pre0 & net0 & tr0 & -> & H0).
  destruct (get_user_details_loop_result _ _ _ _ _ _ H0)
    as [->|(pre & text & data & -> & ->)]; [left; reflexivity|].
  right. exists (pre0 ++ pre), text, data. split; [rewrite app_assoc; reflexivity|].
  split; [apply normalize_user_details_keys|].
  intros k Hk. rewrite normalize_user_details_keys in Hk. simpl in Hk.
  repeat (destruct Hk as [<-|Hk]; [reflexivity|]). contradiction.
Qed.

(** ** The retry decorator bounds [get_user_stats] *)

Lemma count_gets_app t1 t2 : count_gets (t1 ++ t2) = count_gets t1 + count_gets t2.
Proof. induction t1 as [|[] t1 IH]; simpl; auto. Qed.

Lemma backoff_retry_gets {B A : Type} (T : list (Net B) -> list event -> Res B A) :
  (forall net tr, exists ext, res_trace (T net tr) = tr ++ ext /\ count_gets ext <= 1) ->
  forall left tries net tr,
    exists ext, res_trace (backoff_retry left tries T net tr) = tr ++ ext /\
                count_gets ext <= S left.
Proof.
  intros HT. induction left as [|left IH]; intros tries net tr; simpl;
    destruct (HT net tr) as (ext & Hx & Hc);
    destruct (T net tr) as [a n t|e n t|t] eqn:E; simpl in Hx; subst;
    try (exists ext; split; [reflexivity | lia]).
  - destruct (is_request_exception e); simpl.
    + exists (ext ++ [GivingUp tries]). rewrite app_assoc. split; [reflexivity|].
      rewrite count_gets_app. simpl. lia.
    + exists ext. split; [reflexivity | lia].
  - destruct (is_request_exception e).
    + destruct (IH (S tries) n ((tr ++ ext) ++ [BackingOff tries])) as (ext' & Hx' & Hc').
      exists (ext ++ BackingOff tries :: ext'). rewrite Hx', <- !app_assoc.
      split; [reflexivity|]. rewrite count_gets_app. simpl. lia.
    + exists ext. split; [reflexivity | lia].
Qed.

(** X2: whatever the site answers (transport failures, error statuses,
    pages it cannot parse), one call of [get_user_stats] sends at most five
    requests: the decorator stops after its fifth try. *)
Theorem get_user_stats_at_most_five_requests :
  forall scrape u net tr,
    exists ext, res_trace (get_user_stats scrape u net tr) = tr ++ ext /\
                count_gets ext <= 5.
Proof.
  intros scrape u net tr. unfold get_user_stats, on_exception. simpl Nat.sub.
  apply backoff_retry_gets.
  intros net0 tr0. unfold get_user_stats_body.
  exists [Get ("https://dev.to/" ++ u ++ "/")].
  destruct net0 as [|[k|status text pl] rest]; simpl; [split; [reflexivity|lia]..|].
  destruct ((400 <=? status)%Z && (status <? 600)%Z); simpl; [split; [reflexivity|lia]|].
  destruct (scrape text); simpl; split; [reflexivity|lia|reflexivity|lia].
Qed.

(** X3: a response whose status is outside 400..599 ends [get_user_stats]
    after that one request: it returns what the page yields, and a page the
    scraper cannot read raises [AttributeError], which is not retried. *)
Theorem get_user_stats_no_retry_on_page_errors :
  forall scrape u status text pl rest tr,
    ~ (400 <= status < 600)%Z ->
    get_user_stats scrape u (Resp status text pl :: rest) tr =
    match scrape text with
    | Some s => Ok s rest (tr ++ [Get ("https://dev.to/" ++ u ++ "/")])
    | None => Exc AttributeError rest (tr ++ [Get ("https://dev.to/" ++ u ++ "/")])
    end.
Proof.
  intros scrape u status text pl rest tr Hs.
  assert (E : ((400 <=? status) && (status <? 600))%Z = false).
  { destruct (400 <=? status)%Z eqn:E1; [|reflexivity]. simpl.
    apply Z.ltb_ge. apply Z.leb_le in E1. lia. }
  unfold get_user_stats, on_exception. simpl Nat.sub. simpl backoff_retry.
  unfold get_user_stats_body. rewrite E. destruct (scrape text); reflexivity.
Qed.

(** ** Pagination and the retry decorator *)

Lemma summary_loop_pages u (pages : list (string * list Article)) :
  forall page acc tail tr,
    Forall (fun p => snd p <> []) pages ->
    exists acc' tr',
      summary_loop u page acc (ok_pages pages ++ tail) tr =
      summary_loop u (page + List.length pages) acc' tail tr'.
Proof.
  induction pages as [|[t pg] pages IH]; intros page acc tail tr H.
  - exists acc, tr. simpl. rewrite Nat.add_0_r. reflexivity.
  - inversion H as [|? ? Hne Hrest]; subst. simpl in Hne.
    destruct pg as [|a pg]; [congruence|].
    change (ok_pages ((t, a :: pg) :: pages) ++ tail)
      with (Resp 200 t (Some (a :: pg)) :: (ok_pages pages ++ tail)).
    simpl summary_loop at 1.
    match goal with |- context [summary_articles ?x ?y ?z] =>
      destruct (summary_articles x y z) as [acc1 tr1] end.
    destruct (IH (S page) acc1 tail tr1 Hrest) as (acc' & tr' & E).
    exists acc', tr'. rewrite E. simpl List.length. rewrite <- plus_n_Sm. reflexivity.
Qed.

(** X4: an answer other than 200 and 429 makes [get_user_articles_summary]
    return the empty summary (no articles, no tags), even when earlier pages
    had already delivered articles: these are dropped. *)
Theorem get_user_articles_summary_error_drops_pages :
  forall u (pages : list (string * list Article)) status text payload rest tr,
    Forall (fun p => snd p <> []) pages ->
    status <> 200%Z -> status <> 429%Z ->
    exists tr',
      get_user_articles_summary u (ok_pages pages ++ Resp status text payload :: rest) tr =
      Ok empty_summary rest tr'.
Proof.
  intros u pages status text payload rest tr H H2 H4.
  apply Z.eqb_neq in H2, H4.
  destruct (summary_loop_pages u pages 1 empty_summary (Resp status text payload :: rest) tr H)
    as (acc' & tr' & E).
  unfold get_user_articles_summary, on_exception. simpl Nat.sub.
  simpl backoff_retry. rewrite E. simpl summary_loop. rewrite H2, H4.
  eexists. reflexivity.
Qed.

(** X5: a transport failure in the middle of a paginated download does not
    resume it: the decorator's next try starts again at page 1 with nothing
    collected, and the pages already fetched are requested anew. *)
Theorem retry_restarts_pagination :
  (forall (pages : list (string * list Article)) k rest tr,
     Forall (fun p => snd p <> [] /\ Forall has_row_keys (snd p)) pages ->
     load_articles_to_dataframe (ok_pages pages ++ Transport k :: rest) tr =
     backoff_retry 3 2 (load_articles_loop 1 []) rest
       (tr ++ page_urls (BASE_URL ++ "/articles/me?page=") "" 1 (S (List.length pages))
           ++ [BackingOff 1])) /\
  (forall (pages : list (string * list Dict)) k rest tr,
     Forall (fun p => snd p <> []) pages ->
     load_followers_to_dataframe (ok_pages pages ++ Transport k :: rest) tr =
     backoff_retry 3 2 (load_followers_loop 1 []) rest
       (tr ++ page_urls (BASE_URL ++ "/followers/users?page=") "&per_page=1000"
                        1 (S (List.length pages)) ++ [BackingOff 1])) /\
  (forall u (pages : list (string * list Article)) k rest tr,
     Forall (fun p => snd p <> []) pages ->
     exists tr',
       get_user_articles_summary u (ok_pages pages ++ Transport k :: rest) tr =
       backoff_retry 3 2 (summary_loop u 1 empty_summary) rest tr').
Proof.
  split; [|split].
  - intros pages k rest tr H.
    unfold load_articles_to_dataframe, on_exception. simpl Nat.sub.
    simpl backoff_retry at 1.
    rewrite (load_articles_loop_pages pages 1 [] (Transport k :: rest) tr H).
    simpl load_articles_loop at 1. cbv iota. simpl is_request_exception. cbv iota.
    unfold page_urls. rewrite seq_S, map_app, <- !app_assoc.
    cbn [map app]. rewrite string_append_nil_r. reflexivity.
  - intros pages k rest tr H.
    unfold load_followers_to_dataframe, on_exception. simpl Nat.sub.
    simpl backoff_retry at 1.
    rewrite (load_followers_loop_pages pages 1 [] (Transport k :: rest) tr H).
    simpl load_followers_loop at 1. cbv iota. simpl is_request_exception. cbv iota.
    unfold page_urls. rewrite seq_S, map_app, <- !app_assoc. reflexivity.
  - intros u pages k rest tr H.
    destruct (summary_loop_pages u pages 1 empty_summary (Transport k :: rest) tr H)
      as (acc' & tr' & E).
    unfold get_user_articles_summary, on_exception. simpl Nat.sub.
    simpl backoff_retry at 1. rewrite E. simpl summary_loop at 1.
    eexists. reflexivity.
Qed.

(** ** Rows of the articles table *)

Lemma article_rows_error data :
  ~ Forall has_row_keys data -> exists key, article_rows data = inl (KeyError key).
Proof.
  induction data as [|a data IH]; intros H; [exfalso; apply H; constructor|].
  simpl. unfold article_row.
  destruct (title a) eqn:E1; [|eauto].
  destruct (published_at a) eqn:E2; [|eauto].
  destruct (public_reactions_count a) eqn:E3; [|eauto].
  destruct IH as [key Hk].
  - intros Hf. apply H. constructor; [|exact Hf]. unfold has_row_keys.
    rewrite E1, E2, E3. repeat split; discriminate.
  - rewrite Hk. eauto.
Qed.

(** X6: when a page holds an article lacking [title], [published_at] or
    [public_reactions_count], [load_articles_to_dataframe] raises [KeyError]
    after that page's request; the decorator does not retry it and the rows
    of the earlier pages are lost. *)
Theorem load_articles_missing_key_raises :
  forall (pages : list (string * list Article)) text data rest tr,
    Forall (fun p => snd p <> [] /\ Forall has_row_keys (snd p)) pages ->
    ~ Forall has_row_keys data ->
    exists key,
      load_articles_to_dataframe (ok_pages pages ++ Resp 200 text (Some data) :: rest) tr =
      Exc (KeyError key) rest
        (tr ++ page_urls (BASE_URL ++ "/articles/me?page=") "" 1 (S (List.length pages))).
Proof.
  intros pages text data rest tr H Hd.
  destruct (article_rows_error data Hd) as [key Hk].
  assert (Hne : data <> []) by (intros ->; apply Hd; constructor).
  exists key.
  unfold load_articles_to_dataframe, on_exception. simpl Nat.sub.
  rewrite backoff_retry_single.
  - rewrite (load_articles_loop_pages pages 1 [] (Resp 200 text (Some data) :: rest) tr H).
    simpl load_articles_loop at 1. cbv iota.
    destruct data as [|a data]; [congruence|]. rewrite Hk.
    unfold page_urls. rewrite seq_S, map_app, <- !app_assoc.
    cbn [map app]. rewrite string_append_nil_r. reflexivity.
  - intros e n t Hx.
    rewrite (load_articles_loop_pages pages 1 [] (Resp 200 text (Some data) :: rest) tr H) in Hx.
    simpl load_articles_loop in Hx.
    destruct data as [|a data]; [congruence|]. rewrite Hk in Hx.
    injection Hx as <- _ _. reflexivity.
Qed.

Lemma fold_add_seen (ks seen : list string) :
  (forall k, In k ks -> In k seen) ->
  fold_left (fun acc k => if existsb (String.eqb k) acc then acc else acc ++ [k]) ks seen
  = seen.
Proof.
  revert seen; induction ks as [|k ks IH]; intros seen H; simpl; [reflexivity|].
  assert (E : existsb (String.eqb k) seen = true).
  { apply existsb_exists. exists k. split; [apply H; left; reflexivity | apply String.eqb_refl]. }
  rewrite E. apply IH. intros k' Hk'. apply H. right. exact Hk'.
Qed.

Lemma fold_add_fresh (ks seen : list string) :
  NoDup ks -> (forall k, In k ks -> ~ In k seen) ->
  fold_left (fun acc k => if existsb (String.eqb k) acc then acc else acc ++ [k]) ks seen
  = seen ++ ks.
Proof.
  revert seen; induction ks as [|k ks IH]; intros seen Hnd H; simpl; [rewrite app_nil_r; reflexivity|].
  inversion Hnd as [|? ? Hnin Hnd']; subst.
  assert (E : existsb (String.eqb k) seen = false).
  { destruct (existsb (String.eqb k) seen) eqn:E; [|reflexivity].
    apply existsb_exists in E as [k' [Hin Hk]]. apply String.eqb_eq in Hk; subst k'.
    exfalso. exact (H k (or_introl eq_refl) Hin). }
  rewrite E, IH, <- app_assoc; [reflexivity | exact Hnd'|].
  intros k' Hk' Hin. apply in_app_or in Hin as [Hin|[<-|[]]].
  - exact (H k' (or_intror Hk') Hin).
  - contradiction.
Qed.

Lemma keys_union_same (K : list string) recs :
  Forall (fun r : Dict => map fst r = K) recs ->
  keys_union K recs = K.
Proof.
  induction 1 as [|r recs Hr _ IH]; simpl; [reflexivity|].
  rewrite Hr, fold_add_seen by auto. exact IH.
Qed.

Lemma article_rows_keys data rows :
  article_rows data = inr rows -> Forall (fun r : Dict => map fst r = article_row_keys) rows.
Proof.
  revert rows; induction data as [|a data IH]; intros rows H; simpl in H.
  - injection H as <-. constructor.
  - destruct (article_row a) as [e|r] eqn:Ea; [discriminate|].
    destruct (article_rows data) as [e|rs]; [discriminate|].
    injection H as <-. constructor; [|apply IH; reflexivity].
    unfold article_row in Ea.
    destruct (title a); [|discriminate]. destruct (published_at a); [|discriminate].
    destruct (public_reactions_count a); [|discriminate].
    injection Ea as <-. reflexivity.
Qed.

Lemma load_articles_loop_rows net : forall page acc tr df net' tr',
  Forall (fun r : Dict => map fst r = article_row_keys) acc ->
  load_articles_loop page acc net tr = Ok df net' tr' ->
  exists recs, Forall (fun r : Dict => map fst r = article_row_keys) recs /\
               df = df_from_records recs.
Proof.
  induction net as [|[k|status text data] net IH]; intros page acc tr df net' tr' Hacc H;
    simpl in H; try discriminate.
  destruct (negb (status =? 200)%Z).
  - injection H as <- _ _. eauto.
  - destruct data as [[|a data]|]; [injection H as <- _ _; eauto| |discriminate].
    destruct (article_rows (a :: data)) as [e|rows] eqn:E; [discriminate|].
    eapply IH; [|exact H]. apply Forall_app. split; [exact Hacc|].
    eapply article_rows_keys. exact E.
Qed.

(** X7: a table returned by [load_articles_to_dataframe] has exactly the
    columns [title], [created_at] (the articles' [published_at]) and
    [public_reactions_count] when it has rows, and no column at all when no
    article was collected. *)
Theorem load_articles_columns :
  forall net tr df net' tr',
    load_articles_to_dataframe net tr = Ok df net' tr' ->
    map fst (df_columns df) =
    match df_index df with [] => [] | _ => article_row_keys end.
Proof.
  intros net tr df net' tr' H.
  destruct (backoff_retry_ok _ _ _ _ _ _ _ _ H) as (net0 & tr0 & H0).
  destruct (load_articles_loop_rows _ _ _ _ _ _ _ (Forall_nil _) H0) as (recs & Hk & ->).
  simpl. rewrite map_map. simpl. rewrite map_id.
  destruct Hk as [|r recs Hr Hk]; simpl; [reflexivity|].
  rewrite Hr, fold_add_fresh.
  - simpl. apply keys_union_same. exact Hk.
  - unfold article_row_keys. repeat constructor; simpl; intros Hx;
      repeat (destruct Hx as [Hx|Hx]; [discriminate Hx|]); exact Hx.
  - intros k _ [].
Qed.

(** ** Row-by-row enrichment with profile statistics *)

Lemma stats_per_row_rel scrape rows : forall net tr ss net' tr',
  stats_per_row scrape rows net tr = Ok ss net' tr' ->
  per_row_stats scrape rows net tr ss net' tr' /\ List.length ss = List.length rows.
Proof.
  induction rows as [|[u titles] rows IH]; intros net tr ss net' tr' H; simpl in H.
  - injection H as <- <- <-. split; [constructor | reflexivity].
  - destruct (get_user_stats scrape (py_str u) net tr) as [s n1 t1|e n1 t1|t1] eqn:E;
      try discriminate.
    match type of H with
    | match stats_per_row scrape rows n1 ?t with _ => _ end = _ =>
        destruct (stats_per_row scrape rows n1 t) as [ss' n2 t2|e n2 t2|t2] eqn:E2;
          try discriminate
    end.
    injection H as <- <- <-. destruct (IH _ _ _ _ _ E2) as [Hr Hl].
    split; [econstructor; eauto | simpl; rewrite Hl; reflexivity].
Qed.

Lemma df_setitems_first_length {X : Type} (f : string * (X -> pyval))
    (fields : list (string * (X -> pyval))) xs df df' :
  df_setitems df (field_columns (f :: fields) xs) = inr df' ->
  List.length xs = List.length (df_index df).
Proof.
  simpl. unfold df_setitem. destruct (Nat.eqb _ _) eqn:E; [|discriminate].
  intros _. apply Nat.eqb_eq in E. rewrite length_map in E. exact E.
Qed.

(** X8: [update_followers_with_stats] scrapes the profile of each row's
    [username] once, in row order, and at every row the four new columns
    [badges], [badge_descriptions], [comments_count] and [tags_count] hold
    that row's statistics; the row labels and the other columns are kept. *)
Theorem update_followers_with_stats_row_aligned :
  forall scrape st loc df us ts net tr st' loc' net' tr',
    nth_error st loc = Some df ->
    df_col df "username" = Some us -> df_col df "article_titles" = Some ts ->
    update_followers_with_stats scrape st loc net tr = Ok (st', loc') net' tr' ->
    exists ss df',
      per_row_stats scrape (combine us ts) net tr ss net' tr' /\
      List.length ss = List.length (df_index df) /\
      nth_error st' loc' = Some df' /\
      df_index df' = df_index df /\
      (forall c f, In (c, f) stats_fields -> df_col df' c = Some (map f ss)) /\
      (forall c, ~ In c (map fst stats_fields) -> df_col df' c = df_col df c).
Proof.
  intros scrape st loc df us ts net tr st' loc' net' tr' Hst Hu Ht H.
  unfold update_followers_with_stats in H. rewrite Hst, Hu, Ht in H.
  destruct (stats_per_row scrape (combine us ts) net tr) as [ss n1 t1|e n1 t1|t1] eqn:E;
    try discriminate.
  destruct (df_setitems df (field_columns stats_fields ss)) as [e|df'] eqn:Hs;
    [discriminate|].
  injection H as <- <- <- <-.
  destruct (stats_per_row_rel _ _ _ _ _ _ _ E) as [Hr _].
  destruct (set_columns_in_place _ _ _ _ _ _ stats_fields_NoDup Hst Hs)
    as (_ & _ & H3 & H4 & H5 & H6).
  exists ss, df'. split; [exact Hr|].
  split; [exact (df_setitems_first_length _ _ _ _ _ Hs)|].
  auto.
Qed.

(** ** GitHub enrichment without the category filter *)

(** X9: with [filter_connected_profiles = false], [update_with_github]
    returns a new table (the store is only extended, the input table is
    left as it was) holding exactly the input rows whose [github_username]
    is not missing, in input order with their labels and cells, plus the
    three GitHub columns. *)
Theorem update_with_github_unfiltered_rows :
  forall token st loc df ghs net tr st' loc' net' tr',
    nth_error st loc = Some df ->
    df_col df "github_username" = Some ghs ->
    update_with_github token st loc false net tr = Ok (st', loc') net' tr' ->
    let mask := map notna ghs in
    loc' = List.length st /\
    exists gu,
      st' = st ++ [gu] /\
      nth_error st' loc' = Some gu /\
      df_index gu = filter_by mask (df_index df) /\
      (forall c, ~ In c (map fst github_fields) ->
                 df_col gu c = option_map (filter_by mask) (df_col df c)) /\
      (forall c, In c (map fst github_fields) -> df_col gu c <> None).
Proof.
  intros token st loc df ghs net tr st' loc' net' tr' Hst Hg H mask.
  destruct (update_with_github_ok _ _ _ _ _ _ _ _ _ _ _ Hst H)
    as (mask' & rs & Hm & _ & _ & -> & ->).
  simpl in Hm. rewrite Hg in Hm. injection Hm as <-. fold mask.
  split; [reflexivity|].
  eexists. split; [reflexivity|].
  split; [rewrite nth_error_app2, Nat.sub_diag by lia; reflexivity|].
  split; [|split].
  - rewrite github_apply_index. unfold github_base.
    rewrite setitem_scalar_fold_index. reflexivity.
  - intros c Hn. rewrite github_apply_col_other by exact Hn. unfold github_base.
    rewrite setitem_scalar_fold_col.
    destruct (existsb (String.eqb c) (map fst github_fields)) eqn:E.
    + apply existsb_exists in E as [c' [Hin Hcc]]. apply String.eqb_eq in Hcc; subst c'.
      contradiction.
    + apply df_filter_col.
  - intros c Hin. apply github_apply_col_some. unfold github_base.
    rewrite setitem_scalar_fold_col.
    assert (E : existsb (String.eqb c) (map fst github_fields) = true)
      by (apply existsb_exists; exists c; split; [exact Hin | apply String.eqb_refl]).
    rewrite E. discriminate.
Qed.

(** ** What a successful GitHub lookup writes *)

Lemma github_apply_app rows1 : forall rows2 rs1 rs2 df,
  List.length rows1 = List.length rs1 ->
  github_apply df (rows1 ++ rows2) (rs1 ++ rs2) =
  github_apply (github_apply df rows1 rs1) rows2 rs2.
Proof.
  induction rows1 as [|[l u] rows1 IH]; intros rows2 [|r rs1] rs2 df Hl;
    simpl in *; try discriminate; [reflexivity|].
  apply IH. lia.
Qed.

Lemma github_apply_cons df l u rows r rs :
  github_apply df ((l, u) :: rows) (r :: rs) = github_apply (github_write df l r) rows rs.
Proof. reflexivity. Qed.

Lemma github_apply_cell_other_labels rows rs df c i L :
  nth_error (df_index df) i = Some L ->
  (forall l u, In (l, u) rows -> l <> L) ->
  cell (github_apply df rows rs) c i = cell df c i.
Proof.
  intros Hi Hl. apply (github_apply_cell rows rs df c i L Hi).
  intros l u r Hin Heq. apply in_combine_l in Hin. exfalso. exact (Hl l u Hin Heq).
Qed.

Lemma cell_at_set_same df L c v i :
  nth_error (df_index df) i = Some L -> cell df c i <> None ->
  cell (df_at_set df L c v) c i = Some v.
Proof.
  intros Hi Hc. unfold cell in *. rewrite df_col_at_set, String.eqb_refl.
  destruct (df_col df c) as [vs|]; [|contradiction]. simpl.
  rewrite nth_error_set_where, Hi.
  destruct (nth_error vs i); [|contradiction]. rewrite Z.eqb_refl. reflexivity.
Qed.

Lemma cell_at_set_other_col df L c c' v i :
  c <> c' -> cell (df_at_set df L c' v) c i = cell df c i.
Proof.
  intros Hne. unfold cell. rewrite df_col_at_set.
  destruct (String.eqb c c') eqn:E; [apply String.eqb_eq in E; contradiction | reflexivity].
Qed.

Lemma at_set_fold_cell_written (fs : list (string * string)) d L c k i : forall df,
  NoDup (map fst fs) -> In (c, k) fs ->
  nth_error (df_index df) i = Some L -> cell df c i <> None ->
  cell (fold_left (fun acc f => df_at_set acc L (fst f) (dict_get d (snd f))) fs df) c i
  = Some (dict_get d k).
Proof.
  induction fs as [|[c0 k0] fs IH]; intros df Hnd Hin Hi Hc; [contradiction|].
  inversion Hnd as [|? ? Hnin Hnd']; subst. simpl.
  destruct Hin as [Heq|Hin].
  - injection Heq as -> ->.
    unfold cell at 1. rewrite at_set_fold_col_other by exact Hnin.
    apply cell_at_set_same; assumption.
  - assert (Hne : c <> c0).
    { intros ->. apply Hnin. apply (in_map fst) in Hin. exact Hin. }
    apply IH; [exact Hnd' | exact Hin | exact Hi |].
    rewrite cell_at_set_other_col by exact Hne. exact Hc.
Qed.

Lemma github_fields_NoDup : NoDup (map fst github_fields).
Proof.
  simpl. repeat constructor; simpl; intros H;
    repeat (destruct H as [H|H]; [discriminate H|]); exact H.
Qed.

Lemma NoDup_map_fst_combine {X Y : Type} (xs : list X) : forall (ys : list Y),
  NoDup xs -> NoDup (map fst (combine xs ys)).
Proof.
  induction xs as [|x xs IH]; intros [|y ys] H; simpl; try constructor.
  - inversion H as [|? ? Hn Hd]; subst. intros Hin. apply Hn.
    apply in_map_iff in Hin as [[x' y'] [Hx Hin]]. simpl in Hx; subst x'.
    apply in_combine_l in Hin. exact Hin.
  - inversion H; subst. apply IH. assumption.
Qed.

(** X10: when the input table's row labels are unique, the [i]-th lookup
    is the one for the label and [github_username] cell of the [i]-th row
    the filter keeps, and a row whose GitHub lookup returned a non-empty
    dictionary [d] ends with
    [github_created_at], [github_updated_at] and [github_public_repos] equal
    to [d.get("created_at")], [d.get("updated_at")] and
    [d.get("public_repos")] ([None] for an absent key): no other row's
    lookup overwrites them. *)
Theorem update_with_github_successful_lookup_written :
  forall token st loc df filt net tr st' loc' net' tr',
    nth_error st loc = Some df ->
    NoDup (df_index df) ->
    update_with_github token st loc filt net tr = Ok (st', loc') net' tr' ->
    exists gu mask ghs rows rs,
      nth_error st' loc' = Some gu /\
      github_mask df filt = inr mask /\
      df_col df "github_username" = Some ghs /\
      df_index gu = filter_by mask (df_index df) /\
      rows = combine (filter_by mask (df_index df)) (filter_by mask ghs) /\
      per_row_github token rows net tr rs net' tr' /\
      List.length rs = List.length rows /\
      forall i d, nth_error rs i = Some (Some d) -> dict_truthy d = true ->
        exists label u,
          nth_error rows i = Some (label, u) /\
          nth_error (df_index gu) i = Some label /\
          forall c k, In (c, k) github_fields -> cell gu c i = Some (dict_get d k).
Proof.
  intros token st loc df filt net tr st' loc' net' tr' Hst Hnd H.
  destruct (update_with_github_ok _ _ _ _ _ _ _ _ _ _ _ Hst H)
    as (mask & rs & Hm & Hr & Hl & -> & ->).
  set (gu0 := github_base df mask) in *.
  set (rows := github_base_rows gu0) in *.
  assert (Hidx : df_index gu0 = filter_by mask (df_index df))
    by (unfold gu0, github_base; rewrite setitem_scalar_fold_index; reflexivity).
  assert (Hnd0 : NoDup (df_index gu0)) by (rewrite Hidx; apply filter_by_NoDup; exact Hnd).
  assert (Hndr : NoDup (map fst rows)) by (apply NoDup_map_fst_combine; exact Hnd0).
  destruct (github_base_rows_spec df filt mask Hm) as (ghs & Hg & Hi & Hrows).
  exists (github_apply gu0 rows rs), mask, ghs, rows, rs.
  split; [rewrite nth_error_app2, Nat.sub_diag by lia; reflexivity|].
  split; [exact Hm|]. split; [exact Hg|].
  split; [rewrite github_apply_index; exact Hi|]. split; [exact Hrows|].
  split; [exact Hr|]. split; [exact Hl|].
  intros i d Hri Htr.
  assert (Hlt : i < List.length rows)
    by (rewrite <- Hl; apply nth_error_Some; congruence).
  destruct (nth_error rows i) as [[label u]|] eqn:Hrow;
    [|apply nth_error_Some in Hlt; contradiction].
  assert (Hli : nth_error (df_index gu0) i = Some label)
    by (eapply nth_error_combine_fst; exact Hrow).
  exists label, u. split; [reflexivity|].
  split; [rewrite github_apply_index; exact Hli|].
  intros c k Hin.
  destruct (nth_error_split _ _ Hrow) as (r1 & r2 & Erows & Hl1).
  destruct (nth_error_split _ _ Hri) as (s1 & s2 & Ers & Hs1).
  assert (Hfresh : ~ In label (map fst r1 ++ map fst r2)).
  { rewrite Erows, map_app in Hndr. simpl in Hndr. apply NoDup_remove_2 in Hndr.
    exact Hndr. }
  assert (Hr1 : forall l u', In (l, u') r1 -> l <> label).
  { intros l u' Hin' ->. apply Hfresh. apply in_or_app. left.
    apply (in_map fst) in Hin'. exact Hin'. }
  assert (Hr2 : forall l u', In (l, u') r2 -> l <> label).
  { intros l u' Hin' ->. apply Hfresh. apply in_or_app. right.
    apply (in_map fst) in Hin'. exact Hin'. }
  rewrite Erows, Ers, github_apply_app by lia. rewrite github_apply_cons.
  set (g1 := github_apply gu0 r1 s1).
  assert (Hg1i : nth_error (df_index g1) i = Some label)
    by (unfold g1; rewrite github_apply_index; exact Hli).
  assert (Hg1c : cell g1 c i = Some PNone).
  { unfold g1. rewrite (github_apply_cell_other_labels _ _ _ _ _ label Hli Hr1).
    unfold cell, gu0, github_base. rewrite setitem_scalar_fold_col.
    assert (E : existsb (String.eqb c) (map fst github_fields) = true).
    { apply existsb_exists. exists c. split; [|apply String.eqb_refl].
      apply (in_map fst) in Hin. exact Hin. }
    rewrite E. apply nth_error_repeat.
    assert (Hf0 : df_index (df_filter df mask) = df_index gu0)
      by (unfold gu0, github_base; rewrite setitem_scalar_fold_index; reflexivity).
    rewrite Hf0. apply nth_error_Some. congruence. }
  rewrite (github_apply_cell_other_labels _ _ _ _ _ label); [| |exact Hr2].
  - unfold github_write. rewrite Htr.
    assert (Hn : cell g1 c i <> None) by (rewrite Hg1c; discriminate).
    exact (at_set_fold_cell_written github_fields d label c k i g1
             github_fields_NoDup Hin Hg1i Hn).
  - rewrite github_write_index. exact Hg1i.
Qed.

(** ** [load_users_with_details] *)

Lemma dict_lookup_app k (d e : Dict) :
  dict_lookup k (d ++ e) =
  match dict_lookup k d with Some v => Some v | None => dict_lookup k e end.
Proof.
  induction d as [|[k0 v0] d IH]; simpl; [reflexivity|].
  destruct (String.eqb k k0); [reflexivity | exact IH].
Qed.

Lemma dict_lookup_In k (d : Dict) v : dict_lookup k d = Some v -> In k (map fst d).
Proof.
  induction d as [|[k0 v0] d IH]; simpl; [discriminate|].
  destruct (String.eqb k k0) eqn:E; intros H.
  - apply String.eqb_eq in E. left. congruence.
  - right. apply IH. exact H.
Qed.

Lemma dict_lookup_not_In k (d : Dict) : ~ In k (map fst d) -> dict_lookup k d = None.
Proof.
  intros H. destruct (dict_lookup k d) eqn:E; [|reflexivity].
  exfalso. apply H. eapply dict_lookup_In. exact E.
Qed.

Lemma dict_lookup_map_set k k' v (d : Dict) :
  dict_lookup k (map (fun kv => if String.eqb k' (fst kv) then (fst kv, v) else kv) d) =
  if String.eqb k k'
  then (if existsb (fun kv => String.eqb k' (fst kv)) d then Some v else None)
  else dict_lookup k d.
Proof.
  induction d as [|[k0 v0] d IH]; simpl.
  - destruct (String.eqb k k'); reflexivity.
  - destruct (String.eqb k' k0) eqn:E0; simpl.
    + apply String.eqb_eq in E0; subst k0. rewrite ?String.eqb_refl. simpl.
      destruct (String.eqb k k'); [reflexivity | exact IH].
    + destruct (String.eqb k k0) eqn:E1.
      * apply String.eqb_eq in E1; subst k0.
        destruct (String.eqb k k') eqn:E2; [|reflexivity].
        apply String.eqb_eq in E2; subst k'. rewrite String.eqb_refl in E0. discriminate.
      * exact IH.
Qed.

Lemma dict_lookup_dict_set k k' v (d : Dict) :
  dict_lookup k (dict_set d k' v) = if String.eqb k k' then Some v else dict_lookup k d.
Proof.
  unfold dict_set. destruct (existsb (fun kv => String.eqb k' (fst kv)) d) eqn:E.
  - rewrite dict_lookup_map_set, E. reflexivity.
  - rewrite dict_lookup_app. simpl.
    destruct (String.eqb k k') eqn:E1.
    + apply String.eqb_eq in E1; subst k'.
      rewrite dict_lookup_not_In; [reflexivity|].
      intros Hin. apply in_map_iff in Hin as [[k0 v0] [Hk Hin]]. simpl in Hk; subst k0.
      assert (existsb (fun kv => String.eqb k (fst kv)) d = true)
        by (apply existsb_exists; exists (k, v0); split; [exact Hin | apply String.eqb_refl]).
      congruence.
    + destruct (dict_lookup k d); reflexivity.
Qed.

(** [d.update(e)] for a dictionary [e] with distinct keys: [e]'s values win. *)
Lemma dict_lookup_dict_update k (e : Dict) : forall d,
  NoDup (map fst e) ->
  dict_lookup k (dict_update d e) =
  match dict_lookup k e with Some v => Some v | None => dict_lookup k d end.
Proof.
  unfold dict_update.
  induction e as [|[k' v'] e IH]; intros d Hnd; simpl; [reflexivity|].
  inversion Hnd as [|? ? Hnin Hnd']; subst.
  rewrite IH by exact Hnd'. rewrite dict_lookup_dict_set.
  destruct (String.eqb k k') eqn:E.
  - apply String.eqb_eq in E; subst k'. rewrite dict_lookup_not_In by exact Hnin. reflexivity.
  - reflexivity.
Qed.

Lemma dict_lookup_row_to_dict c df i :
  dict_lookup c (row_to_dict df i) =
  option_map (fun vs => nth i vs PNone) (col_lookup c (df_columns df)).
Proof.
  unfold row_to_dict. induction (df_columns df) as [|[c0 vs] cols IH]; simpl; [reflexivity|].
  destruct (String.eqb c c0); [reflexivity | exact IH].
Qed.

Lemma fold_add_In_seen k (ks seen : list string) :
  In k seen ->
  In k (fold_left (fun acc k => if existsb (String.eqb k) acc then acc else acc ++ [k]) ks seen).
Proof.
  revert seen; induction ks as [|k0 ks IH]; intros seen H; simpl; [exact H|].
  apply IH. destruct (existsb (String.eqb k0) seen); [exact H|].
  apply in_or_app. left. exact H.
Qed.

Lemma fold_add_In_new k (ks seen : list string) :
  In k ks ->
  In k (fold_left (fun acc k => if existsb (String.eqb k) acc then acc else acc ++ [k]) ks seen).
Proof.
  revert seen; induction ks as [|k0 ks IH]; intros seen H; simpl; [contradiction|].
  destruct H as [->|H]; [|apply IH; exact H].
  apply fold_add_In_seen. destruct (existsb (String.eqb k) seen) eqn:E.
  - apply existsb_exists in E as [k' [Hin Hk]]. apply String.eqb_eq in Hk. subst k'.
    exact Hin.
  - apply in_or_app. right. left. reflexivity.
Qed.

Lemma keys_union_In_seen k recs : forall seen, In k seen -> In k (keys_union seen recs).
Proof.
  induction recs as [|r recs IH]; intros seen H; simpl; [exact H|].
  apply IH. apply fold_add_In_seen. exact H.
Qed.

Lemma keys_union_In k r recs : forall seen,
  In r recs -> In k (map fst r) -> In k (keys_union seen recs).
Proof.
  induction recs as [|r0 recs IH]; intros seen Hr Hk; simpl; [contradiction|].
  destruct Hr as [<-|Hr].
  - apply keys_union_In_seen. apply fold_add_In_new. exact Hk.
  - apply IH; assumption.
Qed.

Lemma col_lookup_keys (F : string -> list pyval) c ks :
  In c ks -> col_lookup c (map (fun k => (k, F k)) ks) = Some (F c).
Proof.
  induction ks as [|k ks IH]; simpl; [contradiction|]. intros H.
  destruct (String.eqb c k) eqn:E.
  - apply String.eqb_eq in E. subst. reflexivity.
  - apply IH. destruct H as [->|H]; [rewrite String.eqb_refl in E; discriminate | exact H].
Qed.

Lemma nth_error_seq_lt s n : forall i, i < n -> nth_error (seq s n) i = Some (s + i).
Proof.
  revert s; induction n as [|n IH]; intros s i Hi; [lia|].
  destruct i as [|i]; simpl; [rewrite Nat.add_0_r; reflexivity|].
  rewrite IH by lia. f_equal. lia.
Qed.

Lemma nth_error_combine_both {X Y : Type} (xs : list X) (ys : list Y) i x y :
  nth_error xs i = Some x -> nth_error ys i = Some y ->
  nth_error (combine xs ys) i = Some (x, y).
Proof.
  revert ys i; induction xs as [|x0 xs IH]; intros [|y0 ys] [|i] Hx Hy; simpl in *;
    try discriminate; [congruence|]. apply IH; assumption.
Qed.

Lemma users_details_rows_rel rows : forall net tr recs net' tr',
  users_details_rows rows net tr = Ok recs net' tr' ->
  exists ds, per_row_details rows net tr ds net' tr' /\
    List.length ds = List.length rows /\
    recs = map (fun p => dict_update (fst p) (snd p)) (combine rows ds).
Proof.
  induction rows as [|row rows IH]; intros net tr recs net' tr' H; simpl in H.
  - injection H as <- <- <-. exists []. split; [constructor|]. auto.
  - destruct (dict_lookup "username" row) as [u|] eqn:Eu; [|discriminate].
    destruct (get_user_details (py_str u) net tr) as [d n1 t1|e n1 t1|t1] eqn:E;
      try discriminate.
    destruct (users_details_rows rows n1 t1) as [ds' n2 t2|e n2 t2|t2] eqn:E2;
      try discriminate.
    injection H as <- <- <-. destruct (IH _ _ _ _ _ E2) as (ds & Hr & Hl & ->).
    exists (d :: ds). split; [econstructor; eauto|]. simpl. auto.
Qed.

Lemma per_row_details_NoDup rows net tr ds net' tr' :
  per_row_details rows net tr ds net' tr' -> Forall (fun d => NoDup (map fst d)) ds.
Proof.
  induction 1 as [|row rows u net tr d net1 tr1 ds net2 tr2 _ Hd _ IH]; constructor;
    [|exact IH].
  destruct (get_user_details_shape _ _ _ _ _ _ Hd) as [->|[data ->]];
    [constructor | apply normalize_user_details_NoDup].
Qed.

(** X11: [load_users_with_details] on a given table looks up each row's
    [username] in row order and returns a new table with a fresh
    [RangeIndex] and one row per input row; at every row each input column
    keeps its cell unless the details found for that row have a key of the
    same name, whose value then replaces it.  A failed lookup ([{}]) thus
    leaves the row's cells as they were. *)
Theorem load_users_with_details_merges_rows :
  forall df fnet net tr res net' tr',
    load_users_with_details (Some df) fnet net tr = Ok res net' tr' ->
    exists ds,
      per_row_details (df_rows df) net tr ds net' tr' /\
      df_index res = map Z.of_nat (seq 0 (List.length (df_index df))) /\
      forall i, i < List.length (df_index df) ->
        exists d, nth_error ds i = Some d /\
          forall c v, cell df c i = Some v ->
            cell res c i = Some (match dict_lookup c d with Some w => w | None => v end).
Proof.
  intros df fnet net tr res net' tr' H. unfold load_users_with_details in H.
  destruct (users_details_rows (df_rows df) net tr) as [recs n t|e n t|t] eqn:E;
    try discriminate.
  injection H as <- <- <-.
  destruct (users_details_rows_rel _ _ _ _ _ _ E) as (ds & Hr & Hl & Hrecs).
  assert (Hrows : List.length (df_rows df) = List.length (df_index df))
    by (unfold df_rows; rewrite length_map, length_seq; reflexivity).
  assert (Hlen : List.length recs = List.length (df_index df))
    by (rewrite Hrecs, length_map, length_combine, Hl, Hrows; lia).
  exists ds. split; [exact Hr|].
  split; [simpl; rewrite Hlen; reflexivity|].
  intros i Hi.
  assert (Hrow : nth_error (df_rows df) i = Some (row_to_dict df i)).
  { unfold df_rows. rewrite nth_error_map, nth_error_seq_lt by exact Hi. reflexivity. }
  destruct (nth_error ds i) as [d|] eqn:Hd;
    [|apply nth_error_None in Hd; lia].
  exists d. split; [reflexivity|].
  intros c v Hc.
  set (rec := dict_update (row_to_dict df i) d).
  assert (Hrec : nth_error recs i = Some rec).
  { rewrite Hrecs, nth_error_map, (nth_error_combine_both _ _ _ _ _ Hrow Hd). reflexivity. }
  assert (Hnd : NoDup (map fst d)).
  { pose proof (per_row_details_NoDup _ _ _ _ _ _ Hr) as HF.
    rewrite Forall_forall in HF. apply HF. eapply nth_error_In. exact Hd. }
  assert (Hv : dict_lookup c (row_to_dict df i) = Some v).
  { rewrite dict_lookup_row_to_dict. unfold cell, df_col in Hc.
    destruct (col_lookup c (df_columns df)) as [vs|]; [|discriminate]. simpl.
    f_equal. apply nth_error_nth. exact Hc. }
  assert (Hlk : dict_lookup c rec =
                Some (match dict_lookup c d with Some w => w | None => v end)).
  { unfold rec. rewrite dict_lookup_dict_update by exact Hnd.
    destruct (dict_lookup c d); [reflexivity | exact Hv]. }
  assert (Hkeys : In c (keys_union [] recs)).
  { apply (keys_union_In c rec); [eapply nth_error_In; exact Hrec|].
    eapply dict_lookup_In. exact Hlk. }
  unfold cell, df_col, df_from_records. simpl.
  rewrite (col_lookup_keys (fun k => map (fun r => dict_get r k) recs) c _ Hkeys).
  rewrite nth_error_map, Hrec. simpl. unfold dict_get. rewrite Hlk. reflexivity.
Qed.

(** X12: on a table without a [username] column,
    [load_users_with_details] raises [KeyError] before any request when the
    table has a row, and returns an empty table without any request when it
    has none. *)
Theorem load_users_with_details_missing_username :
  forall df fnet net tr,
    df_col df "username" = None ->
    load_users_with_details (Some df) fnet net tr =
    match df_index df with
    | [] => Ok (df_from_records []) net tr
    | _ => Exc (KeyError "username") net tr
    end.
Proof.
  intros df fnet net tr Hu. unfold load_users_with_details, df_rows.
  destruct (df_index df) as [|l idx]; [reflexivity|].
  simpl List.length. rewrite <- cons_seq. simpl map. simpl users_details_rows.
  rewrite dict_lookup_row_to_dict. unfold df_col in Hu. rewrite Hu. reflexivity.
Qed.

(** ** Running the two enrichments in sequence *)

Lemma df_setitems_inl df assigns e :
  df_setitems df assigns = inl e -> e = ValueError.
Proof.
  revert df. induction assigns as [|[c vs] assigns IH]; intros df H; simpl in H;
    [discriminate|].
  unfold df_setitem in H. destruct (Nat.eqb _ _).
  - exact (IH _ H).
  - injection H as <-. reflexivity.
Qed.

Lemma backoff_retry_exc {B A : Type} (P : exn -> Prop)
    (T : list (Net B) -> list event -> Res B A) :
  (forall net tr e n t, T net tr = Exc e n t -> P e) ->
  forall left tries net tr e n t, backoff_retry left tries T net tr = Exc e n t -> P e.
Proof.
  intros HT. induction left as [|left IH]; intros tries net tr e n t H; simpl in H;
    destruct (T net tr) as [a n0 t0|e0 n0 t0|t0] eqn:E; try discriminate.
  - destruct (is_request_exception e0); injection H as <- _ _; eapply HT; exact E.
  - destruct (is_request_exception e0).
    + eapply IH. exact H.
    + injection H as <- _ _. eapply HT. exact E.
Qed.

Lemma get_user_stats_no_key_error scrape u net tr e n t :
  get_user_stats scrape u net tr = Exc e n t -> forall key, e <> KeyError key.
Proof.
  intros H key. revert H. apply (backoff_retry_exc (fun e => e <> KeyError key)).
  intros net0 tr0 e0 n0 t0 H0. unfold get_user_stats_body in H0.
  destruct net0 as [|[k|status text pl] rest]; try discriminate.
  - injection H0 as <- _ _. discriminate.
  - destruct ((400 <=? status)%Z && (status <? 600)%Z); [injection H0 as <- _ _; discriminate|].
    destruct (scrape text); [discriminate | injection H0 as <- _ _; discriminate].
Qed.

Lemma stats_per_row_no_key_error scrape rows : forall net tr e n t,
  stats_per_row scrape rows net tr = Exc e n t -> forall key, e <> KeyError key.
Proof.
  induction rows as [|[u titles] rows IH]; intros net tr e n t H key; simpl in H;
    [discriminate|].
  destruct (get_user_stats scrape (py_str u) net tr) as [s n1 t1|e1 n1 t1|t1] eqn:E.
  - match type of H with
    | match stats_per_row scrape rows n1 ?t with _ => _ end = _ =>
        destruct (stats_per_row scrape rows n1 t) as [ss' n2 t2|e2 n2 t2|t2] eqn:E2;
          try discriminate
    end.
    injection H as <- _ _. eapply IH. exact E2.
  - injection H as <- _ _. eapply get_user_stats_no_key_error. exact E.
  - discriminate.
Qed.

(** X13: the article enrichment adds the [article_titles] column that the
    statistics enrichment reads: on the table [update_followers_with_articles]
    returns, [update_followers_with_stats] never raises [KeyError]. *)
Theorem stats_after_articles_no_key_error :
  forall scrape st loc net tr st' loc' net' tr' net2 tr2 e n t,
    update_followers_with_articles st loc net tr = Ok (st', loc') net' tr' ->
    update_followers_with_stats scrape st' loc' net2 tr2 = Exc e n t ->
    forall key, e <> KeyError key.
Proof.
  intros scrape st loc net tr st' loc' net' tr' net2 tr2 e n t Ha Hs key.
  destruct (nth_error st loc) as [df|] eqn:Hst;
    [|unfold update_followers_with_articles in Ha; rewrite Hst in Ha; discriminate].
  assert (Hu : exists us, df_col df "username" = Some us).
  { unfold update_followers_with_articles in Ha. rewrite Hst in Ha.
    destruct (df_col df "username"); [eauto | discriminate]. }
  destruct Hu as [us Hu].
  destruct (update_followers_with_articles_ok _ _ _ _ _ _ _ _ _ _ Hst Hu Ha)
    as (ss & df' & _ & _ & -> & -> & Hset).
  destruct (set_columns_in_place _ _ _ _ _ _ summary_fields_NoDup Hst Hset)
    as (_ & _ & H3 & _ & H5 & H6).
  assert (Hu' : df_col df' "username" = Some us).
  { rewrite H5; [exact Hu|]. simpl. intros Hin.
    repeat (destruct Hin as [Hin|Hin]; [discriminate Hin|]). exact Hin. }
  assert (Ht' : df_col df' "article_titles" =
                Some (map (fun s => PList (map opt_str (article_titles s))) ss))
    by (apply H6; simpl; auto).
  unfold update_followers_with_stats in Hs. rewrite H3, Hu', Ht' in Hs.
  match type of Hs with
  | match stats_per_row scrape ?r ?n0 ?t0 with _ => _ end = _ =>
      destruct (stats_per_row scrape r n0 t0) as [ss2 n1 t1|e1 n1 t1|t1] eqn:E;
        try discriminate
  end.
  - destruct (df_setitems df' (field_columns stats_fields ss2)) eqn:E3; [|discriminate].
    injection Hs as <- _ _. rewrite (df_setitems_inl _ _ _ E3). discriminate.
  - injection Hs as <- _ _. eapply stats_per_row_no_key_error. exact E.
Qed.

(** * Witnesses of the further properties *)

Lemma get_user_details_result_keys_witness :
  let net := [Resp 429 "" (Some []); Resp 200 "" (Some [("name", PStr "Ann")])] in
  exists r tr',
    get_user_details "ann" net [] = Ok r [] tr' /\
    (r = [] \/
     exists pre text data,
       net = pre ++ Resp 200 text (Some data) :: [] /\
       map fst r = ["name"; "twitter_username"; "github_username"; "summary"; "location";
                    "website_url"; "joined_at"; "profile_image"] /\
       forall k, In k (map fst r) -> dict_lookup k r = Some (dict_get data k)).
Proof.
  intros net. do 2 eexists. split; [reflexivity|].
  exact (get_user_details_result_keys "ann" net [] _ [] _ eq_refl).
Defined.

Lemma get_user_stats_no_retry_on_page_errors_witness :
  let scrape := fun _ : string => Some ([] : list string, [] : list string, 2%Z, 7%Z) in
  ~ (400 <= 302 < 600)%Z /\
  get_user_stats scrape "ann" [Resp 302 "page" (Some tt); Transport Timeout] [] =
    Ok ([], [], 2%Z, 7%Z) [Transport Timeout] [Get "https://dev.to/ann/"].
Proof.
  intros scrape. split; [lia|].
  exact (get_user_stats_no_retry_on_page_errors scrape "ann" 302 "page" (Some tt) [Transport Timeout] []
           ltac:(lia)).
Defined.

Lemma get_user_articles_summary_error_drops_pages_witness :
  let art := mkArticle (Some "post") (Some "2024-01-01") (Some 1%Z) None None None None in
  exists tr',
    get_user_articles_summary "ann"
      (ok_pages [("p", [art]); ("q", [art; art])] ++ Resp 500 "boom" (Some []) :: []) [] =
    Ok empty_summary [] tr'.
Proof.
  intros art.
  exact (get_user_articles_summary_error_drops_pages "ann" [("p", [art]); ("q", [art; art])]
           500%Z "boom" (Some []) [] [] ltac:(repeat constructor; discriminate)
           ltac:(discriminate) ltac:(discriminate)).
Defined.

Lemma retry_restarts_pagination_witness :
  let art := mkArticle (Some "post") (Some "2024-01-01") (Some 1%Z) None None None None in
  let fol := [("username", PStr "ann")] in
  load_articles_to_dataframe (ok_pages [("p", [art])] ++ Transport Timeout :: []) [] =
    backoff_retry 3 2 (load_articles_loop 1 []) []
      ([] ++ page_urls (BASE_URL ++ "/articles/me?page=") "" 1 2 ++ [BackingOff 1]) /\
  load_followers_to_dataframe (ok_pages [("p", [fol])] ++ Transport Timeout :: []) [] =
    backoff_retry 3 2 (load_followers_loop 1 []) []
      ([] ++ page_urls (BASE_URL ++ "/followers/users?page=") "&per_page=1000" 1 2
          ++ [BackingOff 1]) /\
  exists tr',
    get_user_articles_summary "ann" (ok_pages [("p", [art])] ++ Transport Timeout :: []) [] =
    backoff_retry 3 2 (summary_loop "ann" 1 empty_summary) [] tr'.
Proof.
  intros art fol. destruct retry_restarts_pagination as (H1 & H2 & H3).
  split; [apply H1; repeat first [constructor | split | discriminate]|].
  split; [apply H2; repeat constructor; discriminate|].
  apply H3. repeat constructor; discriminate.
Defined.

Lemma load_articles_missing_key_raises_witness :
  let art := mkArticle (Some "post") (Some "2024-01-01") (Some 1%Z) None None None None in
  let bad := mkArticle None (Some "2024-01-01") (Some 1%Z) None None None None in
  exists key,
    load_articles_to_dataframe (ok_pages [("p", [art])] ++ Resp 200 "" (Some [bad]) :: []) [] =
    Exc (KeyError key) [] ([] ++ page_urls (BASE_URL ++ "/articles/me?page=") "" 1 2).
Proof.
  intros art bad.
  apply (load_articles_missing_key_raises [("p", [art])] "" [bad] [] []).
  - repeat first [constructor | split | discriminate].
  - intros H. inversion H as [|x l Hx]. apply (proj1 Hx). reflexivity.
Defined.

Lemma load_articles_columns_witness :
  let art := mkArticle (Some "post") (Some "2024-01-01") (Some 1%Z) None None None None in
  exists df tr',
    load_articles_to_dataframe [Resp 200 "" (Some [art; art]); Resp 200 "" (Some [])] [] = Ok df [] tr' /\
    map fst (df_columns df) = match df_index df with [] => [] | _ => article_row_keys end.
Proof.
  intros art. do 2 eexists. split; [reflexivity|].
  exact (load_articles_columns [Resp 200 "" (Some [art; art]); Resp 200 "" (Some [])] [] _ [] _ eq_refl).
Defined.

Lemma update_followers_with_stats_row_aligned_witness :
  let df := mkDataFrame [0; 1]%Z [("username", [PStr "ann"; PStr "bob"]);
                                  ("article_titles", [PList []; PList []])] in
  let scrape := fun _ : string => Some (["Top"] : list string, [] : list string, 1%Z, 0%Z) in
  exists ss df',
    List.length ss = 2 /\
    nth_error (match update_followers_with_stats scrape [df] 0
                       [Resp 200 "" (Some tt); Resp 200 "" (Some tt)] [] with
               | Ok (st', _) _ _ => st' | _ => [] end) 0 = Some df' /\
    df_col df' "comments_count" = Some (map (fun s : Stats => match s with (_, _, c, _) => PInt c end) ss).
Proof.
  intros df scrape.
  destruct (update_followers_with_stats_row_aligned scrape [df] 0 df
              [PStr "ann"; PStr "bob"] [PList []; PList []]
              [Resp 200 "" (Some tt); Resp 200 "" (Some tt)] [] _ _ _ _
              eq_refl eq_refl eq_refl eq_refl)
    as (ss & df' & _ & L & G & _ & C & _).
  exists ss, df'. split; [exact L|]. split; [exact G|].
  apply C. simpl. auto.
Defined.

Lemma update_with_github_unfiltered_rows_witness :
  let df := mkDataFrame [0; 1]%Z
              [("username", [PStr "ann"; PStr "bob"]);
               ("github_username", [PStr "ann-gh"; PNone])] in
  exists gu,
    nth_error (match update_with_github None [df] 0 false [Resp 404 "Not Found" (Some [])] [] with
               | Ok (st', _) _ _ => st' | _ => [] end) 1 = Some gu /\
    df_index gu = [0%Z] /\ df_col gu "username" = Some [PStr "ann"].
Proof.
  intros df.
  pose proof (update_with_github_unfiltered_rows None [df] 0 df [PStr "ann-gh"; PNone]
                [Resp 404 "Not Found" (Some [])] [] _ _ _ _ eq_refl eq_refl eq_refl) as H.
  cbv zeta in H. destruct H as (L & gu & _ & G & I & O & _).
  exists gu. split; [exact G|]. split; [exact I|].
  rewrite O; [reflexivity|]. vm_compute. intuition discriminate.
Defined.

Lemma update_with_github_successful_lookup_written_witness :
  let df := mkDataFrame [0; 1]%Z
              [("username", [PStr "ann"; PStr "bob"]);
               ("category", [PStr "Connected Profiles"; PStr "Other"]);
               ("github_username", [PStr "ann-gh"; PStr "bob-gh"])] in
  let d := [("created_at", PStr "2020-01-01"); ("updated_at", PStr "2024-01-01");
            ("public_repos", PInt 3)] in
  let net := [Resp 200 "" (Some d); Resp 404 "Not Found" (Some [])] in
  exists gu (rows : list (Z * pyval)) (rs : list (option Dict)),
    nth_error (match update_with_github None [df] 0 false net [] with
               | Ok (st', _) _ _ => st' | _ => [] end) 1 = Some gu /\
    List.length rs = List.length rows.
Proof.
  intros df d net.
  destruct (update_with_github_successful_lookup_written None [df] 0 df false net [] _ _ _ _
              eq_refl ltac:(repeat constructor; vm_compute; intuition discriminate) eq_refl)
    as (gu & mask & ghs & rows & rs & G & _ & _ & _ & _ & _ & L & _).
  exists gu, rows, rs. split; [exact G | exact L].
Defined.

Lemma load_users_with_details_merges_rows_witness :
  let df := mkDataFrame [0%Z] [("username", [PStr "ann"]); ("name", [PStr "old"])] in
  let net := [Resp 429 "" (Some []); Resp 200 "" (Some [("name", PStr "Ann")])] in
  let res := match load_users_with_details (Some df) [] net [] with
             | Ok r _ _ => r | _ => df end in
  exists (ds : list Dict) d, nth_error ds 0 = Some d /\ df_index res = [0%Z].
Proof.
  intros df net res.
  destruct (load_users_with_details_merges_rows df [] net [] _ [] _ eq_refl)
    as (ds & _ & I & R).
  destruct (R 0 ltac:(simpl; lia)) as (d & Hd & _).
  exists ds, d. split; [exact Hd | exact I].
Defined.

Lemma load_users_with_details_missing_username_witness :
  let df := mkDataFrame [0%Z] [("name", [PStr "Ann"])] in
  df_col df "username" = None /\
  load_users_with_details (Some df) [] [Resp 200 "" (Some [])] [] =
    Exc (KeyError "username") [Resp 200 "" (Some [])] [].
Proof.
  intros df. split; [reflexivity|].
  exact (load_users_with_details_missing_username df [] [Resp 200 "" (Some [])] [] eq_refl).
Defined.

Lemma stats_after_articles_no_key_error_witness :
  let df := mkDataFrame [0%Z] [("username", [PStr "ann"])] in
  let scrape := fun _ : string => (None : option Stats) in
  let st' := match update_followers_with_articles [df] 0 [Resp 200 "" (Some [])] [] with
             | Ok (st', _) _ _ => st' | _ => [] end in
  match update_followers_with_stats scrape st' 0 [Resp 200 "page" (Some tt)] [] with
  | Exc e _ _ => e <> KeyError "article_titles"
  | _ => False
  end.
Proof.
  intros df scrape st'.
  exact (stats_after_articles_no_key_error scrape [df] 0 [Resp 200 "" (Some [])] [] _ _ _ _
           [Resp 200 "page" (Some tt)] [] _ _ _ eq_refl eq_refl "article_titles").
Defined.
